(** * Supplier negotiation engine and AP2 payment mandates

    A shallow embedding of
    [services/negotiation_service.py] (class [NegotiationService]) and
    [services/ap2_service.py] (class [AP2Service]) together with the rows of
    [database/models.py] they read and write, and of the AP2 tools of
    [mcp_servers/finance_data/server.py] that call the latter.

    Conventions of the embedding.
    - Python [float] is IEEE binary64: Rocq's primitive [float].  The
      built-ins the services call on floats ([round(x, 2)], true division,
      [int * float]) are written out in [PyFloat].
    - A table is the list of its rows in insertion order;
      [query.filter_by(...).first()] is the first matching row, and an ORM
      object is the row at the position the query found it.
    - A service call runs in its own unit of work: what it has not committed
      when an exception leaves it is discarded.  A call therefore returns the
      committed store together with its outcome.
    - Values the call draws from its environment (uuid4, random.uniform, the
      clocks) are explicit inputs, gathered in [Env].
    - DECIMAL columns the services write are held as the float the service
      assigned; the store's own rounding to the column scale, primary and
      foreign keys and column widths are not part of the model. *)

From Stdlib Require Import ZArith Floats Lia Sorted.
From stdpp Require Import base option list strings.

#[local] Set Warnings "-inexact-float".
#[local] Open Scope Z_scope.

(** ** Python exceptions and call outcomes *)

Inductive Exception : Type :=
  | ValueError (msg : string)
  | IndexError
  | TypeError
  | OverflowError
  | ZeroDivisionError.

Inductive Result (A : Type) : Type :=
  | Ok (a : A)
  | Raise (e : Exception).
Arguments Ok {A} a.
Arguments Raise {A} e.

Definition is_ok {A} (r : Result A) : bool :=
  match r with Ok _ => true | Raise _ => false end.

(** ** Python float built-ins *)

Module PyFloat.

(** [round_half_even num den] is the integer nearest to [num / den]
    ([den > 0]), ties going to the even one. *)
Definition round_half_even (num den : Z) : Z :=
  let q := num / den in
  match 2 * (num mod den) ?= den with
  | Lt => q
  | Gt => q + 1
  | Eq => if Z.even q then q else q + 1
  end.

(** [round(x, 2)]: the exact binary value of [x] is rounded to the nearest
    multiple of 1/100 (ties to even) and that decimal is converted back to
    the nearest double.  NaN, infinities, zeros and integral values round
    to themselves. *)
Definition round2 (x : float) : float :=
  match Prim2SF x with
  | S754_finite s m e =>
      if 0 <=? e then x
      else
        match round_half_even (100 * Z.pos m) (2 ^ (- e)) with
        | Z.pos n =>
            SF2Prim (SFdiv prec emax (S754_finite s n 0) (S754_finite false 100 0))
        | _ => SF2Prim (S754_zero s)
        end
  | _ => x
  end.

(** Conversion of a Python [int] operand in [float * int]: correctly
    rounded, [OverflowError] (here [None]) beyond the double range. *)
Definition of_int (z : Z) : option float :=
  match binary_normalize prec emax z 0 false with
  | S754_infinity _ => None
  | sf => Some (SF2Prim sf)
  end.

(** [float(d)] for a [decimal.Decimal] with two decimal places, given in
    hundredths: the double nearest to [cents / 100]. *)
Definition of_decimal2 (cents : Z) : float :=
  match cents with
  | Z0 => 0%float
  | Z.pos n => SF2Prim (SFdiv prec emax (S754_finite false n 0) (S754_finite false 100 0))
  | Z.neg n => SF2Prim (SFdiv prec emax (S754_finite true n 0) (S754_finite false 100 0))
  end.

(** [x / y] on floats raises [ZeroDivisionError] when [y == 0]. *)
Definition truediv (x y : float) : option float :=
  if (y =? 0)%float then None else Some (x / y)%float.

(** Truth value of a float: everything but the two zeros. *)
Definition truthy (x : float) : bool := negb (x =? 0)%float.

(** Truth value of [Optional[float]]. *)
Definition truthy_opt (x : option float) : bool :=
  match x with Some v => truthy v | None => false end.

End PyFloat.

(** ** Time

    An [Instant] is a point of real time in nanoseconds since the epoch.  A
    [datetime] has microsecond resolution; the clock readings
    [datetime.utcnow()] and [datetime.now()] truncate the instant at which
    they are taken.  The process and the store are taken to run on UTC. *)

Definition Instant := Z.
Definition datetime := Z.

Definition utcnow (t : Instant) : datetime := t / 1000.

(** [timedelta(hours=24)] in microseconds. *)
Definition timedelta_24h : Z := 24 * 3600 * 1000000.

(** [int(dt.timestamp())]: whole seconds, truncated towards zero. *)
Definition int_timestamp (dt : datetime) : Z := Z.quot dt 1000000.

(** What a call draws from its environment: the hexadecimal digits of
    [uuid.uuid4()] it keeps, the value of [random.uniform(1.05, 1.15)], the
    instants of its successive clock readings (numbered from 0 in program
    order) and the store's [now()] used for [server_default] columns. *)
Record Env : Type := {
  uuid4_hex : string;
  random_uniform : float;
  clock : nat -> Instant;
  server_now : datetime
}.

(** ** Rows ([database/models.py]) *)

Module Supplier.
Record t : Type := mk {
  supplier_id : string;
  supplier_name : string
}.
End Supplier.

Module Product.
(** [unit_cost] is a nullable DECIMAL(10, 2), held in hundredths. *)
Record t : Type := mk {
  asin : string;
  unit_cost : option Z
}.
End Product.

(** An element of the [items] array: [{sku, quantity, ...}]. *)
Module Item.
Record t : Type := mk {
  sku : string;
  quantity : Z
}.
End Item.

Module NegotiationSession.
Record t : Type := mk {
  session_id : string;
  status : string;
  items_json : list Item.t;
  target_price : option float;
  max_rounds : Z;
  current_round : Z;
  winning_supplier_id : option string;
  final_price : option float;
  total_value : option float;
  created_at : datetime;
  completed_at : option datetime;
  created_by : string
}.
End NegotiationSession.

Module NegotiationRound.
Record t : Type := mk {
  round_id : string;
  session_id : string;
  supplier_id : string;
  round_number : Z;
  offer_type : string;
  offered_price : float;
  total_value : float;
  counter_price : option float;
  justification : option string;
  status : string;
  response_received_at : option datetime;
  created_at : datetime
}.
End NegotiationRound.

Module PaymentMandate.
(** The claim set of the signed mandate ([mandate_payload]). *)
Record Claims : Type := mkClaims {
  iss : string;
  sub : string;
  aud : string;
  iat : Z;
  exp : Z;
  jti : string;
  claim_mandate_id : string;
  claim_mandate_type : string;
  claim_amount : float;
  claim_currency : string;
  order_details : string;
  claim_session_id : option string;
  claim_po_number : option string;
  user_consent : bool;
  consent_timestamp : datetime
}.

(** A compact JWS, kept in its three parts: the protected header (its
    [kid]), the claim set, and the signature bytes. *)
Record Token : Type := mkToken {
  kid : string;
  payload : Claims;
  signature : string
}.

Record t : Type := mk {
  mandate_id : string;
  session_id : option string;
  po_number : option string;
  supplier_id : string;
  amount : float;
  currency : string;
  mandate_type : string;
  signed_mandate_json : Token;
  merchant_authorization_json : option string;
  signature_algorithm : string;
  public_key_id : string;
  status : string;
  created_at : datetime;
  expires_at : datetime;
  executed_at : option datetime;
  error_message : option string
}.
End PaymentMandate.

(** ** The store *)

Record Database : Type := {
  suppliers : list Supplier.t;
  products : list Product.t;
  negotiation_sessions : list NegotiationSession.t;
  negotiation_rounds : list NegotiationRound.t;
  payment_mandates : list PaymentMandate.t
}.

Definition set_negotiation (db : Database)
    (ss : list NegotiationSession.t) (rs : list NegotiationRound.t) : Database :=
  {| suppliers := suppliers db;
     products := products db;
     negotiation_sessions := ss;
     negotiation_rounds := rs;
     payment_mandates := payment_mandates db |}.

Definition set_payment_mandates (db : Database) (ms : list PaymentMandate.t) : Database :=
  {| suppliers := suppliers db;
     products := products db;
     negotiation_sessions := negotiation_sessions db;
     negotiation_rounds := negotiation_rounds db;
     payment_mandates := ms |}.

(** [db.query(M).filter_by(key=k).first()], with the position of the row. *)

Definition find_supplier (db : Database) (id : string) : option (nat * Supplier.t) :=
  list_find (λ s, Supplier.supplier_id s = id) (suppliers db).

Definition find_product (db : Database) (sku : string) : option (nat * Product.t) :=
  list_find (λ p, Product.asin p = sku) (products db).

Definition find_session (db : Database) (id : string)
    : option (nat * NegotiationSession.t) :=
  list_find (λ s, NegotiationSession.session_id s = id) (negotiation_sessions db).

Definition find_mandate (db : Database) (id : string) : option (nat * PaymentMandate.t) :=
  list_find (λ m, PaymentMandate.mandate_id m = id) (payment_mandates db).

(** [filter_by(session_id=.., supplier_id=..)] on rounds. *)
Definition round_of (sid sup : string) (r : NegotiationRound.t) : bool :=
  bool_decide (NegotiationRound.session_id r = sid)
  && bool_decide (NegotiationRound.supplier_id r = sup).

(** [.order_by(NegotiationRound.round_number.desc()).first()]: a scan that
    keeps the matching row with the greatest [round_number]; among rows with
    equal numbers (an order SQL leaves open) the earliest inserted one. *)
Fixpoint latest_round_from (sid sup : string) (i : nat)
    (rows : list NegotiationRound.t) (best : option (nat * NegotiationRound.t))
    : option (nat * NegotiationRound.t) :=
  match rows with
  | [] => best
  | r :: rest =>
      let best' :=
        if round_of sid sup r then
          match best with
          | None => Some (i, r)
          | Some (_, b) =>
              if NegotiationRound.round_number b <? NegotiationRound.round_number r
              then Some (i, r) else best
          end
        else best in
      latest_round_from sid sup (S i) rest best'
  end.

Definition latest_round (db : Database) (sid sup : string)
    : option (nat * NegotiationRound.t) :=
  latest_round_from sid sup 0 (negotiation_rounds db) None.

(** ** [NegotiationService] *)

Module NegotiationService.

Record CreateSessionResponse : Type := {
  cs_session_id : string;
  cs_status : string;
  cs_items : list Item.t;
  cs_target_price : option float;
  cs_max_rounds : Z;
  cs_created_at : datetime
}.

Record QuoteResponse : Type := {
  rq_round_id : string;
  rq_session_id : string;
  rq_supplier_id : string;
  rq_supplier_name : string;
  rq_offered_price : float;
  rq_total_value : float;
  rq_status : string;
  rq_simulated : bool;
  rq_items : list Item.t
}.

Record CounterResponse : Type := {
  sc_round_id : string;
  sc_session_id : string;
  sc_supplier_id : string;
  sc_our_counter_price : float;
  sc_their_response_price : float;
  sc_total_value : float;
  sc_round_number : Z;
  sc_status : string;
  sc_simulated : bool;
  sc_discount_requested_percent : float
}.

Record AcceptResponse : Type := {
  ao_session_id : string;
  ao_status : string;
  ao_winning_supplier_id : string;
  ao_final_price : float;
  ao_total_value : float;
  ao_items : list Item.t;
  ao_target_price : option float;
  ao_rounds_completed : Z;
  ao_notes : option string;
  ao_completed_at : datetime
}.

(** The target price after the optional derivation from a discount.
    [items[0]] raises [IndexError] on an empty list.  [product.unit_cost]
    is a [decimal.Decimal] and [1 - target_discount_percent / 100] a
    [float]: their product raises [TypeError], so the derivation only
    goes through when there is no product or no (non-zero) unit cost, and
    then leaves the target price as it was. *)
Definition derive_target_price (db : Database) (items : list Item.t)
    (target_price target_discount_percent : option float) : Result (option float) :=
  if PyFloat.truthy_opt target_discount_percent
     && negb (PyFloat.truthy_opt target_price)
  then
    match items with
    | [] => Raise IndexError
    | it :: _ =>
        match find_product db (Item.sku it) with
        | Some (_, p) =>
            match Product.unit_cost p with
            | Some c => if c =? 0 then Ok target_price else Raise TypeError
            | None => Ok target_price
            end
        | None => Ok target_price
        end
    end
  else Ok target_price.

Definition create_session (db : Database) (env : Env)
    (items : list Item.t) (target_price target_discount_percent : option float)
    (max_rounds : Z) (supplier_ids : option (list string)) (created_by : string)
    : Database * Result CreateSessionResponse :=
  let session_id := "neg-" +:+ uuid4_hex env in
  match derive_target_price db items target_price target_discount_percent with
  | Raise e => (db, Raise e)
  | Ok target_price =>
      let session :=
        {| NegotiationSession.session_id := session_id;
           NegotiationSession.status := "open";
           NegotiationSession.items_json := items;
           NegotiationSession.target_price := target_price;
           NegotiationSession.max_rounds := max_rounds;
           NegotiationSession.current_round := 0;
           NegotiationSession.winning_supplier_id := None;
           NegotiationSession.final_price := None;
           NegotiationSession.total_value := None;
           NegotiationSession.created_at := server_now env;
           NegotiationSession.completed_at := None;
           NegotiationSession.created_by := created_by |} in
      (set_negotiation db (negotiation_sessions db ++ [session]) (negotiation_rounds db),
       Ok {| cs_session_id := session_id;
             cs_status := "open";
             cs_items := items;
             cs_target_price := target_price;
             cs_max_rounds := max_rounds;
             cs_created_at := NegotiationSession.created_at session |})
  end.

(** [session.current_round = n] on the session row. *)
Definition with_current_round (s : NegotiationSession.t) (n : Z) : NegotiationSession.t :=
  {| NegotiationSession.session_id := NegotiationSession.session_id s;
     NegotiationSession.status := NegotiationSession.status s;
     NegotiationSession.items_json := NegotiationSession.items_json s;
     NegotiationSession.target_price := NegotiationSession.target_price s;
     NegotiationSession.max_rounds := NegotiationSession.max_rounds s;
     NegotiationSession.current_round := n;
     NegotiationSession.winning_supplier_id := NegotiationSession.winning_supplier_id s;
     NegotiationSession.final_price := NegotiationSession.final_price s;
     NegotiationSession.total_value := NegotiationSession.total_value s;
     NegotiationSession.created_at := NegotiationSession.created_at s;
     NegotiationSession.completed_at := NegotiationSession.completed_at s;
     NegotiationSession.created_by := NegotiationSession.created_by s |}.

(** The base price of a quote: the product's unit cost, 5.0 when there is
    no product or no (non-zero) unit cost. *)
Definition base_price (db : Database) (sku : string) : float :=
  match find_product db sku with
  | Some (_, p) =>
      match Product.unit_cost p with
      | Some c => if c =? 0 then 5.0%float else PyFloat.of_decimal2 c
      | None => 5.0%float
      end
  | None => 5.0%float
  end.

Definition request_quote (db : Database) (env : Env)
    (session_id supplier_id urgency : string) : Database * Result QuoteResponse :=
  match find_session db session_id with
  | None => (db, Raise (ValueError ("Session " +:+ session_id +:+ " not found")))
  | Some (si, session) =>
  match find_supplier db supplier_id with
  | None => (db, Raise (ValueError ("Supplier " +:+ supplier_id +:+ " not found")))
  | Some (_, supplier) =>
  let items := NegotiationSession.items_json session in
  match items with
  | [] => (db, Raise IndexError)
  | it :: _ =>
  let base_price := base_price db (Item.sku it) in
  let markup_percent := random_uniform env in
  let offered_price := PyFloat.round2 (base_price * markup_percent)%float in
  match PyFloat.of_int (Item.quantity it) with
  | None => (db, Raise OverflowError)
  | Some quantity =>
  let total_value := PyFloat.round2 (offered_price * quantity)%float in
  let round_id := "rnd-" +:+ uuid4_hex env in
  let round_number := NegotiationSession.current_round session + 1 in
  let round_entry :=
    {| NegotiationRound.round_id := round_id;
       NegotiationRound.session_id := session_id;
       NegotiationRound.supplier_id := supplier_id;
       NegotiationRound.round_number := round_number;
       NegotiationRound.offer_type := "initial";
       NegotiationRound.offered_price := offered_price;
       NegotiationRound.total_value := total_value;
       NegotiationRound.counter_price := None;
       NegotiationRound.justification := None;
       NegotiationRound.status := "received";
       NegotiationRound.response_received_at := Some (utcnow (clock env 0));
       NegotiationRound.created_at := server_now env |} in
  (set_negotiation db
     (<[si := with_current_round session round_number]> (negotiation_sessions db))
     (negotiation_rounds db ++ [round_entry]),
   Ok {| rq_round_id := round_id;
         rq_session_id := session_id;
         rq_supplier_id := supplier_id;
         rq_supplier_name := Supplier.supplier_name supplier;
         rq_offered_price := offered_price;
         rq_total_value := total_value;
         rq_status := "received";
         rq_simulated := true;
         rq_items := items |})
  end end end end.

(** The three assignments [submit_counter] makes on the latest round. *)
Definition with_counter (r : NegotiationRound.t) (counter_price : float)
    (justification : string) : NegotiationRound.t :=
  {| NegotiationRound.round_id := NegotiationRound.round_id r;
     NegotiationRound.session_id := NegotiationRound.session_id r;
     NegotiationRound.supplier_id := NegotiationRound.supplier_id r;
     NegotiationRound.round_number := NegotiationRound.round_number r;
     NegotiationRound.offer_type := NegotiationRound.offer_type r;
     NegotiationRound.offered_price := NegotiationRound.offered_price r;
     NegotiationRound.total_value := NegotiationRound.total_value r;
     NegotiationRound.counter_price := Some counter_price;
     NegotiationRound.justification := Some justification;
     NegotiationRound.status := "countered";
     NegotiationRound.response_received_at := NegotiationRound.response_received_at r;
     NegotiationRound.created_at := NegotiationRound.created_at r |}.

(** The simulated supplier's reply to a counter-offer: its new price and
    the reported status, from the discount requested. *)
Definition supplier_response (their_price counter_price discount_requested : float)
    : float * string :=
  if (discount_requested <=? 5)%float then
    (counter_price, "accepted")
  else if (discount_requested <=? 10)%float then
    (PyFloat.round2 ((their_price + counter_price) / 2)%float, "countered")
  else if (discount_requested <=? 15)%float then
    (PyFloat.round2 (their_price * 0.95)%float, "countered")
  else
    (PyFloat.round2 (their_price * 0.97)%float, "countered").

Definition submit_counter (db : Database) (env : Env)
    (session_id supplier_id : string) (counter_price : float) (justification : string)
    : Database * Result CounterResponse :=
  match find_session db session_id with
  | None => (db, Raise (ValueError ("Session " +:+ session_id +:+ " not found")))
  | Some (si, session) =>
  match latest_round db session_id supplier_id with
  | None =>
      (db, Raise (ValueError ("No previous round found for supplier " +:+ supplier_id)))
  | Some (ri, latest) =>
  let their_price := NegotiationRound.offered_price latest in
  match PyFloat.truediv (their_price - counter_price)%float their_price with
  | None => (db, Raise ZeroDivisionError)
  | Some ratio =>
  let discount_requested := (ratio * 100)%float in
  let '(new_offered_price, response_status) :=
    supplier_response their_price counter_price discount_requested in
  match NegotiationSession.items_json session with
  | [] => (db, Raise IndexError)
  | it :: _ =>
  match PyFloat.of_int (Item.quantity it) with
  | None => (db, Raise OverflowError)
  | Some quantity =>
  let new_total_value := PyFloat.round2 (new_offered_price * quantity)%float in
  let new_round_id := "rnd-" +:+ uuid4_hex env in
  let new_round_number := NegotiationRound.round_number latest + 1 in
  let new_round :=
    {| NegotiationRound.round_id := new_round_id;
       NegotiationRound.session_id := session_id;
       NegotiationRound.supplier_id := supplier_id;
       NegotiationRound.round_number := new_round_number;
       NegotiationRound.offer_type := "counter";
       NegotiationRound.offered_price := new_offered_price;
       NegotiationRound.total_value := new_total_value;
       NegotiationRound.counter_price := None;
       NegotiationRound.justification := None;
       NegotiationRound.status := "received";
       NegotiationRound.response_received_at := Some (utcnow (clock env 0));
       NegotiationRound.created_at := server_now env |} in
  (set_negotiation db
     (<[si := with_current_round session new_round_number]> (negotiation_sessions db))
     (<[ri := with_counter latest counter_price justification]> (negotiation_rounds db)
      ++ [new_round]),
   Ok {| sc_round_id := new_round_id;
         sc_session_id := session_id;
         sc_supplier_id := supplier_id;
         sc_our_counter_price := counter_price;
         sc_their_response_price := new_offered_price;
         sc_total_value := new_total_value;
         sc_round_number := new_round_number;
         sc_status := response_status;
         sc_simulated := true;
         sc_discount_requested_percent := PyFloat.round2 discount_requested |})
  end end end end end.

(** The five assignments [accept_offer] makes on the session. *)
Definition with_acceptance (s : NegotiationSession.t) (supplier_id : string)
    (latest : NegotiationRound.t) (now : datetime) : NegotiationSession.t :=
  {| NegotiationSession.session_id := NegotiationSession.session_id s;
     NegotiationSession.status := "completed";
     NegotiationSession.items_json := NegotiationSession.items_json s;
     NegotiationSession.target_price := NegotiationSession.target_price s;
     NegotiationSession.max_rounds := NegotiationSession.max_rounds s;
     NegotiationSession.current_round := NegotiationSession.current_round s;
     NegotiationSession.winning_supplier_id := Some supplier_id;
     NegotiationSession.final_price := Some (NegotiationRound.offered_price latest);
     NegotiationSession.total_value := Some (NegotiationRound.total_value latest);
     NegotiationSession.created_at := NegotiationSession.created_at s;
     NegotiationSession.completed_at := Some now;
     NegotiationSession.created_by := NegotiationSession.created_by s |}.

Definition with_round_status (r : NegotiationRound.t) (st : string) : NegotiationRound.t :=
  {| NegotiationRound.round_id := NegotiationRound.round_id r;
     NegotiationRound.session_id := NegotiationRound.session_id r;
     NegotiationRound.supplier_id := NegotiationRound.supplier_id r;
     NegotiationRound.round_number := NegotiationRound.round_number r;
     NegotiationRound.offer_type := NegotiationRound.offer_type r;
     NegotiationRound.offered_price := NegotiationRound.offered_price r;
     NegotiationRound.total_value := NegotiationRound.total_value r;
     NegotiationRound.counter_price := NegotiationRound.counter_price r;
     NegotiationRound.justification := NegotiationRound.justification r;
     NegotiationRound.status := st;
     NegotiationRound.response_received_at := NegotiationRound.response_received_at r;
     NegotiationRound.created_at := NegotiationRound.created_at r |}.

Definition accept_offer (db : Database) (env : Env)
    (session_id supplier_id : string) (notes : option string)
    : Database * Result AcceptResponse :=
  match find_session db session_id with
  | None => (db, Raise (ValueError ("Session " +:+ session_id +:+ " not found")))
  | Some (si, session) =>
  let no_offer :=
    (db, Raise (ValueError ("No valid offer found from supplier " +:+ supplier_id))) in
  match latest_round db session_id supplier_id with
  | None => no_offer
  | Some (ri, latest) =>
  if (NegotiationRound.offered_price latest =? 0)%float then no_offer
  else
    let now := utcnow (clock env 0) in
    let session' := with_acceptance session supplier_id latest now in
    (set_negotiation db
       (<[si := session']> (negotiation_sessions db))
       (<[ri := with_round_status latest "accepted"]> (negotiation_rounds db)),
     Ok {| ao_session_id := session_id;
           ao_status := "completed";
           ao_winning_supplier_id := supplier_id;
           ao_final_price := NegotiationRound.offered_price latest;
           ao_total_value := NegotiationRound.total_value latest;
           ao_items := NegotiationSession.items_json session;
           ao_target_price :=
             if PyFloat.truthy_opt (NegotiationSession.target_price session)
             then NegotiationSession.target_price session else None;
           ao_rounds_completed := NegotiationSession.current_round session;
           ao_notes := notes;
           ao_completed_at := now |})
  end end.

(** *** [compare_offers]

    The rating columns of a supplier row, which this method alone reads:
    nullable DECIMALs, in hundredths.  They are given as a projection of the
    row. *)
Record Ratings : Type := {
  on_time_delivery_rate : option Z;
  quality_rating : option Z
}.

(** An entry of [latest_offers]; [adjusted_score] is the key the
    "quality_adjusted" ranking adds. *)
Record Offer : Type := {
  of_supplier_id : string;
  of_supplier_name : string;
  of_offered_price : float;
  of_total_value : float;
  of_round_number : Z;
  of_on_time_rate : option float;
  of_quality_rating : option float;
  of_adjusted_score : option float
}.

Record CompareResponse : Type := {
  co_session_id : string;
  co_criteria : string;
  co_target_price : option float;
  co_offers_count : nat;
  co_ranked_suppliers : list Offer;
  co_best_offer : option Offer
}.

(** A [dict] with string keys: its items in insertion order.  Assigning to
    a key that is present keeps the key's position. *)
Fixpoint dict_get {V} (d : list (string * V)) (k : string) : option V :=
  match d with
  | [] => None
  | (k', v) :: rest => if decide (k' = k) then Some v else dict_get rest k
  end.

Fixpoint dict_set {V} (d : list (string * V)) (k : string) (v : V) : list (string * V) :=
  match d with
  | [] => [(k, v)]
  | (k', v') :: rest =>
      if decide (k' = k) then (k, v) :: rest else (k', v') :: dict_set rest k v
  end.

(** [float(d) if d else None] on a nullable DECIMAL. *)
Definition float_if (d : option Z) : option float :=
  match d with
  | Some c => if c =? 0 then None else Some (PyFloat.of_decimal2 c)
  | None => None
  end.

(** The rounds [compare_offers] takes into account. *)
Definition offered (r : NegotiationRound.t) : bool :=
  bool_decide (NegotiationRound.status r = "received")
  && (0 <? NegotiationRound.offered_price r)%float.

Definition offer_of (ratings : Supplier.t -> Ratings) (db : Database)
    (round_entry : NegotiationRound.t) : Offer :=
  let supplier_id := NegotiationRound.supplier_id round_entry in
  let supplier := snd <$> find_supplier db supplier_id in
  {| of_supplier_id := supplier_id;
     of_supplier_name :=
       match supplier with Some s => Supplier.supplier_name s | None => supplier_id end;
     of_offered_price := NegotiationRound.offered_price round_entry;
     of_total_value := NegotiationRound.total_value round_entry;
     of_round_number := NegotiationRound.round_number round_entry;
     of_on_time_rate :=
       match supplier with
       | Some s => float_if (on_time_delivery_rate (ratings s))
       | None => None
       end;
     of_quality_rating :=
       match supplier with
       | Some s => float_if (quality_rating (ratings s))
       | None => None
       end;
     of_adjusted_score := None |}.

(** The body of the loop over the rounds of the session. *)
Definition keep_latest (ratings : Supplier.t -> Ratings) (db : Database)
    (latest_offers : list (string * Offer)) (round_entry : NegotiationRound.t)
    : list (string * Offer) :=
  if offered round_entry then
    let supplier_id := NegotiationRound.supplier_id round_entry in
    let newer :=
      match dict_get latest_offers supplier_id with
      | None => true
      | Some o => of_round_number o <? NegotiationRound.round_number round_entry
      end in
    if newer then dict_set latest_offers supplier_id (offer_of ratings db round_entry)
    else latest_offers
  else latest_offers.

Definition latest_offers (ratings : Supplier.t -> Ratings) (db : Database)
    (session_id : string) : list (string * Offer) :=
  fold_left (keep_latest ratings db)
    (filter (λ r, NegotiationRound.session_id r = session_id) (negotiation_rounds db)) [].

(** [list.sort(key=...)] on float keys: the stable ascending sort.  Python
    compares with [<] alone; on keys that are all comparable (no NaN) the
    outcome is the one of this insertion sort. *)
Fixpoint sort_insert {A} (key : A -> float) (x : A) (sorted : list A) : list A :=
  match sorted with
  | [] => [x]
  | y :: rest =>
      if (key x <? key y)%float then x :: sorted else y :: sort_insert key x rest
  end.

Definition list_sort {A} (key : A -> float) (l : list A) : list A :=
  fold_left (λ sorted x, sort_insert key x sorted) l [].

(** [offer["adjusted_score"] = ...] for one offer. *)
Definition with_adjusted_score (offer : Offer) : Result Offer :=
  let quality_factor :=
    ((if PyFloat.truthy_opt (of_quality_rating offer)
      then default 3.0 (of_quality_rating offer) else 3.0) / 5.0)%float in
  let delivery_factor :=
    ((if PyFloat.truthy_opt (of_on_time_rate offer)
      then default 80.0 (of_on_time_rate offer) else 80.0) / 100.0)%float in
  match PyFloat.truediv (of_offered_price offer) (quality_factor * delivery_factor) with
  | None => Raise ZeroDivisionError
  | Some score =>
      Ok {| of_supplier_id := of_supplier_id offer;
            of_supplier_name := of_supplier_name offer;
            of_offered_price := of_offered_price offer;
            of_total_value := of_total_value offer;
            of_round_number := of_round_number offer;
            of_on_time_rate := of_on_time_rate offer;
            of_quality_rating := of_quality_rating offer;
            of_adjusted_score := Some score |}
  end.

Fixpoint score_all (ranked : list Offer) : Result (list Offer) :=
  match ranked with
  | [] => Ok []
  | offer :: rest =>
      match with_adjusted_score offer with
      | Raise e => Raise e
      | Ok offer' =>
          match score_all rest with
          | Raise e => Raise e
          | Ok rest' => Ok (offer' :: rest')
          end
      end
  end.

(** The ranking step, by criteria. *)
Definition rank (criteria : string) (ranked : list Offer) : Result (list Offer) :=
  if bool_decide (criteria = "price") then
    Ok (list_sort of_offered_price ranked)
  else if bool_decide (criteria = "quality_adjusted") then
    match score_all ranked with
    | Raise e => Raise e
    | Ok scored =>
        Ok (list_sort (λ x, default (of_offered_price x) (of_adjusted_score x)) scored)
    end
  else Ok (list_sort of_total_value ranked).

(** [compare_offers] reads the store and commits nothing. *)
Definition compare_offers (ratings : Supplier.t -> Ratings) (db : Database)
    (session_id criteria : string) : Result CompareResponse :=
  match find_session db session_id with
  | None => Raise (ValueError ("Session " +:+ session_id +:+ " not found"))
  | Some (_, session) =>
  match rank criteria (snd <$> latest_offers ratings db session_id) with
  | Raise e => Raise e
  | Ok ranked =>
      Ok {| co_session_id := session_id;
            co_criteria := criteria;
            co_target_price :=
              if PyFloat.truthy_opt (NegotiationSession.target_price session)
              then NegotiationSession.target_price session else None;
            co_offers_count := length ranked;
            co_ranked_suppliers := ranked;
            co_best_offer := head ranked |}
  end end.

(** A call of the service, and what it does to the store. *)
Inductive Call : Type :=
  | CreateSession (env : Env) (items : list Item.t)
      (target_price target_discount_percent : option float) (max_rounds : Z)
      (supplier_ids : option (list string)) (created_by : string)
  | RequestQuote (env : Env) (session_id supplier_id urgency : string)
  | SubmitCounter (env : Env) (session_id supplier_id : string)
      (counter_price : float) (justification : string)
  | AcceptOffer (env : Env) (session_id supplier_id : string) (notes : option string).

Definition run (db : Database) (c : Call) : Database * bool :=
  match c with
  | CreateSession env items tp td mr sids by_ =>
      let '(db', r) := create_session db env items tp td mr sids by_ in (db', is_ok r)
  | RequestQuote env sid sup urgency =>
      let '(db', r) := request_quote db env sid sup urgency in (db', is_ok r)
  | SubmitCounter env sid sup c j =>
      let '(db', r) := submit_counter db env sid sup c j in (db', is_ok r)
  | AcceptOffer env sid sup notes =>
      let '(db', r) := accept_offer db env sid sup notes in (db', is_ok r)
  end.

Definition exec (db : Database) (calls : list Call) : Database :=
  fold_left (λ d c, fst (run d c)) calls db.


End NegotiationService.

(** ** [AP2Service] *)

Module AP2Service.
Import PaymentMandate.

(** Outcome of [jwt.decode]: the claim set, or the exception classes
    [verify_mandate] tells apart. *)
Inductive DecodeResult : Type :=
  | Decoded (claims : Claims)
  | ExpiredSignatureError
  | InvalidSignatureError
  | OtherError (msg : string).

Record CreateMandateResponse : Type := {
  cm_mandate_id : string;
  cm_signed_mandate : Token;
  cm_amount : float;
  cm_currency : string;
  cm_supplier_id : string;
  cm_expires_at : datetime;
  cm_status : string;
  cm_session_id : option string;
  cm_po_number : option string
}.

(** The dictionary [verify_mandate] returns; a key that is absent is [None]. *)
Record VerifyResult : Type := {
  vr_mandate_id : string;
  valid : bool;
  decoded_payload : option Claims;
  vr_status : option string;
  vr_amount : option float;
  vr_currency : option string;
  vr_supplier_id : option string;
  error : option string;
  expired_at : option datetime
}.

Record ExecuteResponse : Type := {
  ex_mandate_id : string;
  ex_status : string;
  ex_amount : float;
  ex_currency : string;
  ex_supplier_id : string;
  ex_po_number : string;
  ex_executed_at : datetime;
  ex_message : string
}.

Definition with_status (m : PaymentMandate.t) (st : string) (err : option string)
    : PaymentMandate.t :=
  {| mandate_id := mandate_id m;
     session_id := session_id m;
     po_number := po_number m;
     supplier_id := supplier_id m;
     amount := amount m;
     currency := currency m;
     mandate_type := mandate_type m;
     signed_mandate_json := signed_mandate_json m;
     merchant_authorization_json := merchant_authorization_json m;
     signature_algorithm := signature_algorithm m;
     public_key_id := public_key_id m;
     status := st;
     created_at := created_at m;
     expires_at := expires_at m;
     executed_at := executed_at m;
     error_message := err |}.

Definition with_merchant_authorization (m : PaymentMandate.t) (auth : string)
    : PaymentMandate.t :=
  {| mandate_id := mandate_id m;
     session_id := session_id m;
     po_number := po_number m;
     supplier_id := supplier_id m;
     amount := amount m;
     currency := currency m;
     mandate_type := mandate_type m;
     signed_mandate_json := signed_mandate_json m;
     merchant_authorization_json := Some auth;
     signature_algorithm := signature_algorithm m;
     public_key_id := public_key_id m;
     status := "verified";
     created_at := created_at m;
     expires_at := expires_at m;
     executed_at := executed_at m;
     error_message := error_message m |}.

Definition with_execution (m : PaymentMandate.t) (now : datetime) (po : string)
    : PaymentMandate.t :=
  {| mandate_id := mandate_id m;
     session_id := session_id m;
     po_number := Some po;
     supplier_id := supplier_id m;
     amount := amount m;
     currency := currency m;
     mandate_type := mandate_type m;
     signed_mandate_json := signed_mandate_json m;
     merchant_authorization_json := merchant_authorization_json m;
     signature_algorithm := signature_algorithm m;
     public_key_id := public_key_id m;
     status := "executed";
     created_at := created_at m;
     expires_at := expires_at m;
     executed_at := Some now;
     error_message := error_message m |}.

(** Truth value of [Optional[str]]. *)
Definition truthy_str (s : option string) : bool :=
  match s with Some v => negb (bool_decide (v = "")) | None => false end.

Section Service.

(** The RSA key pair of the service and the RS256 primitives of the
    [cryptography] package, which the model leaves abstract. *)
Variables PrivateKey PublicKey : Type.
Variable public_key : PrivateKey -> PublicKey.
Variable rs256_sign : PrivateKey -> string -> Claims -> string.
Variable rs256_verify : PublicKey -> string -> Claims -> string -> bool.

(** [jwt.encode(payload, key, algorithm="RS256", headers={"kid": kid})]. *)
Definition jwt_encode (claims : Claims) (key : PrivateKey) (key_id : string) : Token :=
  {| kid := key_id; payload := claims; signature := rs256_sign key key_id claims |}.

(** [jwt.decode(token, key, algorithms=["RS256"], audience=audience)] of
    PyJWT, read at instant [t]: the signature is checked first, then the
    registered claims in the library's order (iat, exp, aud).  The library's
    clock is a float of seconds with the microseconds as fraction; [iat] and
    [exp] are whole seconds. *)
Definition jwt_decode (token : Token) (key : PublicKey) (audience : string) (t : Instant)
    : DecodeResult :=
  if negb (rs256_verify key (kid token) (payload token) (signature token))
  then InvalidSignatureError
  else
    let now := utcnow t in
    if now <? iat (payload token) * 1000000
    then OtherError "The token is not yet valid (iat)"
    else if exp (payload token) * 1000000 <=? now
    then ExpiredSignatureError
    else if negb (bool_decide (aud (payload token) = audience))
    then OtherError "Audience doesn't match"
    else Decoded (payload token).

Definition create_mandate (self : PrivateKey) (db : Database) (env : Env)
    (supplier_id : string) (amount : float) (currency : string) (order_details : string)
    (session_id po_number : option string) (user_consent : bool)
    : Database * Result CreateMandateResponse :=
  if negb user_consent then
    (db, Raise (ValueError
       "User consent required for payment mandate creation (user_consent=True)"))
  else
  match find_supplier db supplier_id with
  | None => (db, Raise (ValueError ("Supplier " +:+ supplier_id +:+ " not found")))
  | Some _ =>
  let mandate_id := "ap2-" +:+ uuid4_hex env in
  let mandate_payload :=
    {| iss := "SupplyMind";
       sub := supplier_id;
       aud := "ap2-payment-gateway";
       iat := int_timestamp (utcnow (clock env 0));
       exp := int_timestamp (utcnow (clock env 1) + timedelta_24h);
       jti := mandate_id;
       claim_mandate_id := mandate_id;
       claim_mandate_type := "checkout";
       claim_amount := amount;
       claim_currency := currency;
       PaymentMandate.order_details := order_details;
       claim_session_id := session_id;
       claim_po_number := po_number;
       PaymentMandate.user_consent := user_consent;
       consent_timestamp := utcnow (clock env 2) |} in
  let signed_mandate := jwt_encode mandate_payload self "supplymind-key-001" in
  let mandate :=
    {| PaymentMandate.mandate_id := mandate_id;
       PaymentMandate.session_id := session_id;
       PaymentMandate.po_number := po_number;
       PaymentMandate.supplier_id := supplier_id;
       PaymentMandate.amount := amount;
       PaymentMandate.currency := currency;
       mandate_type := "checkout";
       signed_mandate_json := signed_mandate;
       merchant_authorization_json := None;
       signature_algorithm := "RS256";
       public_key_id := "supplymind-key-001";
       status := "created";
       created_at := server_now env;
       expires_at := utcnow (clock env 3) + timedelta_24h;
       executed_at := None;
       error_message := None |} in
  (set_payment_mandates db (payment_mandates db ++ [mandate]),
   Ok {| cm_mandate_id := mandate_id;
         cm_signed_mandate := signed_mandate;
         cm_amount := amount;
         cm_currency := currency;
         cm_supplier_id := supplier_id;
         cm_expires_at := expires_at mandate;
         cm_status := "created";
         cm_session_id := session_id;
         cm_po_number := po_number |})
  end.

Definition invalid (id : string) (err : string) (expired : option datetime) : VerifyResult :=
  {| vr_mandate_id := id;
     valid := false;
     decoded_payload := None;
     vr_status := None;
     vr_amount := None;
     vr_currency := None;
     vr_supplier_id := None;
     error := Some err;
     expired_at := expired |}.

(** Clock readings: 0 is the service's [datetime.utcnow()] of the expiry
    check, 1 the library's own reading inside [jwt.decode]. *)
Definition verify_mandate (self : PrivateKey) (db : Database) (env : Env)
    (mandate_id : string) (merchant_authorization : option string)
    : Database * Result VerifyResult :=
  match find_mandate db mandate_id with
  | None => (db, Raise (ValueError ("Mandate " +:+ mandate_id +:+ " not found")))
  | Some (i, mandate) =>
  let commit m := set_payment_mandates db (<[i := m]> (payment_mandates db)) in
  if expires_at mandate <? utcnow (clock env 0) then
    (commit (with_status mandate "expired" (error_message mandate)),
     Ok (invalid mandate_id "Mandate expired" (Some (expires_at mandate))))
  else
    match jwt_decode (signed_mandate_json mandate) (public_key self)
            "ap2-payment-gateway" (clock env 1) with
    | Decoded decoded =>
        let '(db', mandate') :=
          match merchant_authorization with
          | Some auth =>
              if truthy_str merchant_authorization
              then let m := with_merchant_authorization mandate auth in (commit m, m)
              else (db, mandate)
          | None => (db, mandate)
          end in
        (db',
         Ok {| vr_mandate_id := mandate_id;
               valid := true;
               decoded_payload := Some decoded;
               vr_status := Some (status mandate');
               vr_amount := Some (amount mandate');
               vr_currency := Some (currency mandate');
               vr_supplier_id := Some (supplier_id mandate');
               error := None;
               expired_at := None |})
    | ExpiredSignatureError =>
        (commit (with_status mandate "expired" (Some "JWT signature expired")),
         Ok (invalid mandate_id "Signature expired" None))
    | InvalidSignatureError =>
        (commit (with_status mandate "failed" (Some "Invalid JWT signature")),
         Ok (invalid mandate_id "Invalid signature" None))
    | OtherError msg =>
        (commit (with_status mandate "failed" (Some msg)),
         Ok (invalid mandate_id ("Verification error: " +:+ msg) None))
    end
  end.

(** The tail of [execute_payment], on the mandate object as it stands in
    [db] at row [i]. *)
Definition mark_executed (db : Database) (i : nat) (mandate : PaymentMandate.t)
    (mandate_id po_number : string) (now : datetime) : Database * Result ExecuteResponse :=
  (set_payment_mandates db (<[i := with_execution mandate now po_number]> (payment_mandates db)),
   Ok {| ex_mandate_id := mandate_id;
         ex_status := "executed";
         ex_amount := amount mandate;
         ex_currency := currency mandate;
         ex_supplier_id := supplier_id mandate;
         ex_po_number := po_number;
         ex_executed_at := now;
         ex_message := "Payment executed successfully (simulated)" |}).

(** Clock readings: on a verified mandate, 0 is [executed_at]; on a created
    one, 0 and 1 belong to the automatic verification and 2 is
    [executed_at]. *)
Definition execute_payment (self : PrivateKey) (db : Database) (env : Env)
    (mandate_id po_number : string) : Database * Result ExecuteResponse :=
  match find_mandate db mandate_id with
  | None => (db, Raise (ValueError ("Mandate " +:+ mandate_id +:+ " not found")))
  | Some (i, mandate) =>
  if negb (bool_decide (status mandate = "verified")) then
    if bool_decide (status mandate = "created") then
      match verify_mandate self db env mandate_id None with
      | (db', Raise e) => (db', Raise e)
      | (db', Ok verify_result) =>
          if negb (valid verify_result) then
            (db', Raise (ValueError ("Mandate verification failed: "
                                     +:+ default "None" (error verify_result))))
          else
            mark_executed db' i (default mandate (payment_mandates db' !! i))
              mandate_id po_number (utcnow (clock env 2))
      end
    else
      (db, Raise (ValueError ("Mandate must be verified before execution. Current status: "
                              +:+ status mandate)))
  else mark_executed db i mandate mandate_id po_number (utcnow (clock env 0))
  end.

End Service.

(** An idealised RS256 on which the service can be run: a key is its own
    public half, and a signature names the key and the token it signs. *)
Module Symbolic.
Definition public_key (k : string) : string := k.
Definition rs256_sign (k : string) (key_id : string) (claims : Claims) : string :=
  k +:+ "/" +:+ key_id +:+ "/" +:+ jti claims.
Definition rs256_verify (k : string) (key_id : string) (claims : Claims) (sig : string)
    : bool :=
  bool_decide (sig = k +:+ "/" +:+ key_id +:+ "/" +:+ jti claims).
End Symbolic.

End AP2Service.

(** ** The AP2 tools of the finance MCP server
    ([mcp_servers/finance_data/server.py], [execute_tool])

    Every branch builds its own [AP2Service(db)]; no PEM is passed, so the
    service's key is the one [rsa.generate_private_key] returns in that
    call, here [generated].  The arguments are those of a request that
    conforms to the tool's input schema; a key the request leaves out is
    [None]. *)

Module FinanceData.
Import PaymentMandate AP2Service.

Inductive ToolCall : Type :=
  | create_payment_mandate (session_id : option string) (supplier_id : string)
      (amount : float) (currency : option string) (order_details : string)
      (user_consent : option bool)
  | verify_payment_mandate (mandate_id : string) (merchant_authorization : option string)
  | execute_payment_with_mandate (mandate_id po_number : string).

Inductive ToolResult : Type :=
  | MandateCreated (result : CreateMandateResponse)
  | MandateVerified (result : VerifyResult)
  | PaymentExecuted (result : ExecuteResponse).

Definition returning {A} (tag : A -> ToolResult) (call : Database * Result A)
    : Database * Result ToolResult :=
  match call with
  | (db, Ok result) => (db, Ok (tag result))
  | (db, Raise e) => (db, Raise e)
  end.

Section Server.
Variables PrivateKey PublicKey : Type.
Variable public_key : PrivateKey -> PublicKey.
Variable rs256_sign : PrivateKey -> string -> Claims -> string.
Variable rs256_verify : PublicKey -> string -> Claims -> string -> bool.

Definition execute_tool (generated : PrivateKey) (db : Database) (env : Env)
    (call : ToolCall) : Database * Result ToolResult :=
  match call with
  | create_payment_mandate session_id supplier_id amount currency order_details
      user_consent =>
      let currency := default "USD" currency in
      let user_consent := default false user_consent in
      returning MandateCreated
        (create_mandate PrivateKey rs256_sign generated db env supplier_id amount
           currency order_details session_id None user_consent)
  | verify_payment_mandate mandate_id merchant_authorization =>
      returning MandateVerified
        (verify_mandate PrivateKey PublicKey public_key rs256_verify generated db env
           mandate_id merchant_authorization)
  | execute_payment_with_mandate mandate_id po_number =>
      returning PaymentExecuted
        (execute_payment PrivateKey PublicKey public_key rs256_verify generated db env
           mandate_id po_number)
  end.

End Server.

End FinanceData.

(** * Statements: predicates and scenarios *)





(** ** Concrete stores and calls

    The scenarios of the specification, on which the statements below are
    run. *)

Module Scenario.
Import NegotiationService.

Definition env (uuid : string) (markup : float) (t : Instant) : Env :=
  {| uuid4_hex := uuid; random_uniform := markup;
     clock := λ _, t; server_now := utcnow t |}.

(** Two suppliers and one product, B001 at 4.00; no session yet. *)
Definition store : Database :=
  {| suppliers := [Supplier.mk "SUP-001" "Acme Dairy"; Supplier.mk "SUP-002" "Bolt Foods"];
     products := [Product.mk "B001" (Some 400)];
     negotiation_sessions := [];
     negotiation_rounds := [];
     payment_mandates := [] |}.

(** Scenario A: a session for 500 units of B001. *)
Definition open_session : Call :=
  CreateSession (env "5e55104a" 1.1 1000) [Item.mk "B001" 500] None None 3 None
    "NegotiationAgent".

Definition quote (uuid supplier : string) (markup : float) : Call :=
  RequestQuote (env uuid markup 2000) "neg-5e55104a" supplier "medium".

Definition counter (uuid supplier : string) (price : float) : Call :=
  SubmitCounter (env uuid 1.1 3000) "neg-5e55104a" supplier price "Target budget".

(** One quote from SUP-001 at 4.00 x 1.125 = 4.50. *)
Definition quoted : Database := exec store [open_session; quote "00000001" "SUP-001" 1.125].

(** Quotes from both suppliers, then a counter to SUP-002. *)
Definition two_suppliers : Database :=
  exec store [open_session; quote "00000001" "SUP-001" 1.125;
              quote "00000002" "SUP-002" 1.05; counter "00000003" "SUP-002" 4.0].

(** Quotes from both suppliers, none countered. *)
Definition both_quoted : Database :=
  exec store [open_session; quote "00000001" "SUP-001" 1.125;
              quote "00000002" "SUP-002" 1.05].

(** The round [quoted] holds: SUP-001 offers 4.50 a unit, 2250 in all. *)
Definition first_quote : NegotiationRound.t :=
  {| NegotiationRound.round_id := "rnd-00000001";
     NegotiationRound.session_id := "neg-5e55104a";
     NegotiationRound.supplier_id := "SUP-001";
     NegotiationRound.round_number := 1;
     NegotiationRound.offer_type := "initial";
     NegotiationRound.offered_price := 4.5;
     NegotiationRound.total_value := 2250;
     NegotiationRound.counter_price := None;
     NegotiationRound.justification := None;
     NegotiationRound.status := "received";
     NegotiationRound.response_received_at := Some 2;
     NegotiationRound.created_at := 2 |}.

(** The session of the scenarios, as [store] holds it after [n] rounds. *)
Definition session_after (n : Z) : NegotiationSession.t :=
  {| NegotiationSession.session_id := "neg-5e55104a";
     NegotiationSession.status := "open";
     NegotiationSession.items_json := [Item.mk "B001" 500];
     NegotiationSession.target_price := None;
     NegotiationSession.max_rounds := 3;
     NegotiationSession.current_round := n;
     NegotiationSession.winning_supplier_id := None;
     NegotiationSession.final_price := None;
     NegotiationSession.total_value := None;
     NegotiationSession.created_at := 1;
     NegotiationSession.completed_at := None;
     NegotiationSession.created_by := "NegotiationAgent" |}.



Definition final_price_of (db : Database) (sid : string) : option (option float) :=
  (λ f, NegotiationSession.final_price f.2) <$> find_session db sid.

Definition status_of (db : Database) (sid : string) : option string :=
  (λ f, NegotiationSession.status f.2) <$> find_session db sid.



End Scenario.

(** The AP2 scenarios, on the idealised RS256. *)
Module MandateScenario.
Import AP2Service.

Definition create_mandate := create_mandate string Symbolic.rs256_sign.
Definition verify_mandate :=
  verify_mandate string string Symbolic.public_key Symbolic.rs256_verify.
Definition execute_payment :=
  execute_payment string string Symbolic.public_key Symbolic.rs256_verify.

(** A call whose clock readings are taken at the given instants, the store
    stamping [created_at] with its own [now()]. *)
Definition env (uuid : string) (readings : list Instant) (stamp : datetime) : Env :=
  {| uuid4_hex := uuid; random_uniform := 1.1;
     clock := λ k, default 0 (readings !! k); server_now := stamp |}.

(** Scenario E.  The mandate is built around second 2 of the epoch: the
    token's [exp] is computed at 1.999999 s, the row's [expires_at] at
    2.000001 s; the store's transaction began at 1.9 s. *)
Definition creation : Env :=
  env "00000000aa" [1999999000; 1999999000; 2000000000; 2000001000] 1900000.

Definition created : Database * Result CreateMandateResponse :=
  create_mandate "key-A" Scenario.store creation "SUP-001" 2200.0 "USD" "{}" None None true.

(** [expires_at] of that mandate: 86402.000001 s, in microseconds. *)
Definition expiry : datetime := 86402000001.

(** The mandate of [created], as the store holds it. *)
Definition mandate_status (db : Database) (id : string) : option string :=
  (λ f, PaymentMandate.status f.2) <$> find_mandate db id.

(** A verification whose two clock readings are taken at instant [t]. *)
Definition at_instant (t : Instant) : Env := env "" [t; t; t] (utcnow t).

End MandateScenario.

(** ** Invariants of the negotiation tables *)

(** A session is open with nothing decided, or completed in favour of a
    supplier at the non-zero price of one of that supplier's rounds in the
    session. *)
Definition open_or_completed (db : Database) (s : NegotiationSession.t) : Prop :=
  (NegotiationSession.status s = "open"
   ∧ NegotiationSession.winning_supplier_id s = None
   ∧ NegotiationSession.final_price s = None
   ∧ NegotiationSession.total_value s = None
   ∧ NegotiationSession.completed_at s = None)
  ∨ (NegotiationSession.status s = "completed"
     ∧ is_Some (NegotiationSession.completed_at s)
     ∧ ∃ r, r ∈ negotiation_rounds db
          ∧ NegotiationRound.session_id r = NegotiationSession.session_id s
          ∧ NegotiationSession.winning_supplier_id s = Some (NegotiationRound.supplier_id r)
          ∧ NegotiationSession.final_price s = Some (NegotiationRound.offered_price r)
          ∧ NegotiationSession.total_value s = Some (NegotiationRound.total_value r)
          ∧ (NegotiationRound.offered_price r =? 0)%float = false).

(** A round names a session and a supplier the store holds, is numbered
    from 1, is an initial quote or the reply to a counter-offer, and is
    "received" without a counter-offer on it, "countered" with one, or
    "accepted". *)
Definition round_well_formed (db : Database) (r : NegotiationRound.t) : Prop :=
  is_Some (find_session db (NegotiationRound.session_id r))
  ∧ is_Some (find_supplier db (NegotiationRound.supplier_id r))
  ∧ 1 ≤ NegotiationRound.round_number r
  ∧ (NegotiationRound.offer_type r = "initial" ∨ NegotiationRound.offer_type r = "counter")
  ∧ (NegotiationRound.status r = "received" ∧ NegotiationRound.counter_price r = None
     ∨ NegotiationRound.status r = "countered" ∧ is_Some (NegotiationRound.counter_price r)
     ∨ NegotiationRound.status r = "accepted")
  ∧ is_Some (NegotiationRound.response_received_at r).

(** No round of the session comes from the supplier. *)
Definition never_quoted (db : Database) (sid sup : string) : Prop :=
  ∀ r, r ∈ negotiation_rounds db → round_of sid sup r = false.


(** Every offer of [rows] is still on a round of [rows']: same session,
    supplier, price and total. *)
Definition offers_kept (rows rows' : list NegotiationRound.t) : Prop :=
  ∀ r, r ∈ rows →
    ∃ r', r' ∈ rows'
        ∧ NegotiationRound.session_id r' = NegotiationRound.session_id r
        ∧ NegotiationRound.supplier_id r' = NegotiationRound.supplier_id r
        ∧ NegotiationRound.offered_price r' = NegotiationRound.offered_price r
        ∧ NegotiationRound.total_value r' = NegotiationRound.total_value r.

(** The two invariants, on a whole store. *)
Definition sessions_settled (db : Database) : Prop :=
  ∀ s, s ∈ negotiation_sessions db → open_or_completed db s.

Definition rounds_well_formed (db : Database) : Prop :=
  (∀ s, s ∈ negotiation_sessions db → 0 ≤ NegotiationSession.current_round s)
  ∧ (∀ r, r ∈ negotiation_rounds db → round_well_formed db r).

(** ** [compare_offers] *)

(** The order of a ranking by [key], and the keys above zero. *)
Definition ascending {A} (key : A → float) (a b : A) : Prop :=
  (key a <=? key b)%float = true.

Definition positive {A} (key : A → float) (a : A) : Prop :=
  (0 <? key a)%float = true.

(** An offer without the score the "quality_adjusted" ranking adds. *)
Definition unscored (o : NegotiationService.Offer) : NegotiationService.Offer :=
  {| NegotiationService.of_supplier_id := NegotiationService.of_supplier_id o;
     NegotiationService.of_supplier_name := NegotiationService.of_supplier_name o;
     NegotiationService.of_offered_price := NegotiationService.of_offered_price o;
     NegotiationService.of_total_value := NegotiationService.of_total_value o;
     NegotiationService.of_round_number := NegotiationService.of_round_number o;
     NegotiationService.of_on_time_rate := NegotiationService.of_on_time_rate o;
     NegotiationService.of_quality_rating := NegotiationService.of_quality_rating o;
     NegotiationService.of_adjusted_score := None |}.

(** [r] is a round of the session that [compare_offers] takes into account,
    and none of its supplier's such rounds in the session has a greater
    number. *)
Definition latest_offered (db : Database) (sid : string) (r : NegotiationRound.t) : Prop :=
  r ∈ negotiation_rounds db
  ∧ NegotiationRound.session_id r = sid
  ∧ NegotiationService.offered r = true
  ∧ ∀ r', r' ∈ negotiation_rounds db →
      NegotiationRound.session_id r' = sid →
      NegotiationRound.supplier_id r' = NegotiationRound.supplier_id r →
      NegotiationService.offered r' = true →
      NegotiationRound.round_number r' ≤ NegotiationRound.round_number r.

(** The state of the loop of [compare_offers] after the rounds [seen]. *)
Definition offers_of_seen (ratings : Supplier.t → NegotiationService.Ratings)
    (db : Database) (seen : list NegotiationRound.t)
    (d : list (string * NegotiationService.Offer)) : Prop :=
  NoDup d.*1
  ∧ (∀ k o, (k, o) ∈ d →
       ∃ r, r ∈ seen ∧ NegotiationService.offered r = true
          ∧ NegotiationRound.supplier_id r = k
          ∧ o = NegotiationService.offer_of ratings db r
          ∧ ∀ r', r' ∈ seen → NegotiationService.offered r' = true →
              NegotiationRound.supplier_id r' = k →
              NegotiationRound.round_number r' ≤ NegotiationRound.round_number r)
  ∧ (∀ r, r ∈ seen → NegotiationService.offered r = true →
       NegotiationRound.supplier_id r ∈ d.*1).

(** ** The mandate table *)

(** What was agreed and signed, which no later call may alter. *)
Definition same_terms (m m' : PaymentMandate.t) : Prop :=
  PaymentMandate.mandate_id m' = PaymentMandate.mandate_id m
  ∧ PaymentMandate.supplier_id m' = PaymentMandate.supplier_id m
  ∧ PaymentMandate.amount m' = PaymentMandate.amount m
  ∧ PaymentMandate.currency m' = PaymentMandate.currency m
  ∧ PaymentMandate.session_id m' = PaymentMandate.session_id m
  ∧ PaymentMandate.signed_mandate_json m' = PaymentMandate.signed_mandate_json m
  ∧ PaymentMandate.created_at m' = PaymentMandate.created_at m
  ∧ PaymentMandate.expires_at m' = PaymentMandate.expires_at m.

(** The claims a mandate carries agree with its row and record the user's
    consent; its supplier exists; its status is one of the five the service
    writes, "verified" only with a merchant authorization on the row and
    "executed" only with an execution time and a purchase order. *)
Definition mandate_consistent (db : Database) (m : PaymentMandate.t) : Prop :=
  let claims := PaymentMandate.payload (PaymentMandate.signed_mandate_json m) in
  PaymentMandate.user_consent claims = true
  ∧ PaymentMandate.iss claims = "SupplyMind"
  ∧ PaymentMandate.aud claims = "ap2-payment-gateway"
  ∧ PaymentMandate.sub claims = PaymentMandate.supplier_id m
  ∧ PaymentMandate.jti claims = PaymentMandate.mandate_id m
  ∧ PaymentMandate.claim_amount claims = PaymentMandate.amount m
  ∧ PaymentMandate.claim_currency claims = PaymentMandate.currency m
  ∧ is_Some (find_supplier db (PaymentMandate.supplier_id m))
  ∧ PaymentMandate.status m ∈ ["created"; "verified"; "executed"; "expired"; "failed"]
  ∧ (PaymentMandate.status m = "verified" →
       AP2Service.truthy_str (PaymentMandate.merchant_authorization_json m) = true)
  ∧ (PaymentMandate.status m = "executed" →
       is_Some (PaymentMandate.executed_at m) ∧ is_Some (PaymentMandate.po_number m)).

(** What a call may do to a row it updates: the terms stay, and the status
    becomes "expired" or "failed", or "verified" under a merchant
    authorization, or "executed" with a time and a purchase order. *)
Definition status_step (m m' : PaymentMandate.t) : Prop :=
  same_terms m m'
  ∧ ((PaymentMandate.status m' = "expired" ∨ PaymentMandate.status m' = "failed")
     ∨ (PaymentMandate.status m' = "verified"
        ∧ AP2Service.truthy_str (PaymentMandate.merchant_authorization_json m') = true)
     ∨ (PaymentMandate.status m' = "executed"
        ∧ is_Some (PaymentMandate.executed_at m')
        ∧ is_Some (PaymentMandate.po_number m'))).

Definition row_update (db db' : Database) : Prop :=
  db' = db
  ∨ ∃ i m m',
      payment_mandates db !! i = Some m
      ∧ status_step m m'
      ∧ db' = set_payment_mandates db (<[i := m']> (payment_mandates db)).

(** Sequences of calls to the mandate service, each by a service instance
    of its own, holding the key [self]. *)
Module MandateCalls.
Import AP2Service.

Section Calls.
Variables PrivateKey PublicKey : Type.
Variable public_key : PrivateKey → PublicKey.
Variable rs256_sign : PrivateKey → string → PaymentMandate.Claims → string.
Variable rs256_verify : PublicKey → string → PaymentMandate.Claims → string → bool.

Inductive Call : Type :=
  | CreateMandate (self : PrivateKey) (env : Env) (supplier_id : string) (amount : float)
      (currency order_details : string) (session_id po_number : option string)
      (user_consent : bool)
  | VerifyMandate (self : PrivateKey) (env : Env) (mandate_id : string)
      (merchant_authorization : option string)
  | ExecutePayment (self : PrivateKey) (env : Env) (mandate_id po_number : string).

Definition run (db : Database) (c : Call) : Database :=
  match c with
  | CreateMandate self env sup amount cur details sid po consent =>
      (create_mandate PrivateKey rs256_sign self db env sup amount cur details sid po
         consent).1
  | VerifyMandate self env id auth =>
      (verify_mandate PrivateKey PublicKey public_key rs256_verify self db env id auth).1
  | ExecutePayment self env id po =>
      (execute_payment PrivateKey PublicKey public_key rs256_verify self db env id po).1
  end.

Definition exec (db : Database) (calls : list Call) : Database := fold_left run calls db.

End Calls.
End MandateCalls.

(** ** Further scenarios *)

Module Walkthrough.
Import NegotiationService.

(** Both suppliers deliver 95 % on time and rate 4.50 of 5. *)
Definition ratings (s : Supplier.t) : Ratings :=
  {| on_time_delivery_rate := Some 9500; quality_rating := Some 450 |}.

Definition session : string := "neg-5e55104a".

(** The quote of SUP-001 is accepted as it stands. *)
Definition accepted : Database :=
  exec Scenario.store
    [Scenario.open_session; Scenario.quote "00000001" "SUP-001" 1.125;
     AcceptOffer (Scenario.env "" 1.1 5000) session "SUP-001" None].



(** A session asked for with a discount of 10 % on an article without
    product record. *)
Definition discounted : Database * Result CreateSessionResponse :=
  create_session Scenario.store (Scenario.env "5e55104e" 1.1 1000)
    [Item.mk "X999" 10] None (Some 10%float) 3 None "NegotiationAgent".


(** The mandate of scenario E. *)
Definition mandate : string := "ap2-00000000aa".

(** It is paid at second 3 by the service that signed it. *)
Definition paid : Database * Result AP2Service.ExecuteResponse :=
  MandateScenario.execute_payment "key-A" MandateScenario.created.1
    (MandateScenario.at_instant 3000000000) mandate "PO-1".

(** It is verified at second 3 with a merchant authorization. *)
Definition verified : Database * Result AP2Service.VerifyResult :=
  MandateScenario.verify_mandate "key-A" MandateScenario.created.1
    (MandateScenario.at_instant 3000000000) mandate (Some "merchant-ok").

(** A day and three seconds after its creation. *)
Definition too_late : Env := MandateScenario.at_instant (86403 * 1000000000).

(** Creation, verification with an authorization, and execution, by three
    service instances. *)
Definition lifecycle : list (MandateCalls.Call string) :=
  [MandateCalls.CreateMandate string "key-A" MandateScenario.creation "SUP-001" 2200.0
     "USD" "{}" None None true;
   MandateCalls.VerifyMandate string "key-A" (MandateScenario.at_instant 3000000000)
     mandate (Some "merchant-ok");
   MandateCalls.ExecutePayment string "key-B" (MandateScenario.at_instant 4000000000)
     mandate "PO-1"].


(** The verification and the execution, on a store that holds the
    mandate. *)
Definition after_creation (db : Database) : Database :=
  MandateCalls.exec string string AP2Service.Symbolic.public_key
    AP2Service.Symbolic.rs256_sign AP2Service.Symbolic.rs256_verify db (tail lifecycle).

Definition execute_tool :=
  FinanceData.execute_tool string string AP2Service.Symbolic.public_key
    AP2Service.Symbolic.rs256_sign AP2Service.Symbolic.rs256_verify.

End Walkthrough.

(** * Proofs *)

(** ** Floats *)

Lemma SFcompare_antisym (x y : spec_float) :
  SFcompare y x = option_map CompOpp (SFcompare x y).
Proof.
  destruct x as [sx|sx| |sx mx ex], y as [sy|sy| |sy my ey]; simpl;
    try destruct sx; try destruct sy; simpl; try reflexivity.
  - rewrite (Z.compare_antisym ex ey).
    destruct (ex ?= ey); simpl; try reflexivity.
    change (Pos.compare_cont Eq my mx) with (Pos.compare_cont (CompOpp Eq) my mx).
    rewrite <- (Pos.compare_cont_antisym mx my Eq).
    destruct (Pos.compare_cont Eq mx my); reflexivity.
  - rewrite (Z.compare_antisym ex ey).
    destruct (ex ?= ey); simpl; try reflexivity.
    change (Pos.compare_cont Eq my mx) with (Pos.compare_cont (CompOpp Eq) my mx).
    rewrite <- (Pos.compare_cont_antisym mx my Eq). reflexivity.
Qed.

Lemma ltb_not_leb (x y : float) : (x <? y)%float = true -> (y <=? x)%float = false.
Proof.
  rewrite ltb_spec, leb_spec. unfold SFltb, SFleb.
  rewrite (SFcompare_antisym (Prim2SF x) (Prim2SF y)).
  destruct (SFcompare (Prim2SF x) (Prim2SF y)) as [[]|]; simpl; congruence.
Qed.


(** ** Queries *)

Section ListFind.
Context {A : Type} (P : A → Prop) `{!∀ x, Decision (P x)}.

(** Replacing a row by one that answers the filter alike does not move what
    [first()] finds. *)
Lemma list_find_insert_alike (l : list A) (i : nat) (x y : A) :
  l !! i = Some x → (P x ↔ P y) →
  list_find P (<[i := y]> l)
  = (λ jz, (jz.1, if decide (jz.1 = i) then y else jz.2)) <$> list_find P l.
Proof.
  intros Hi Hxy. pose proof (lookup_lt_Some _ _ _ Hi) as Hlen.
  destruct (list_find P l) as [[j z]|] eqn:Hf; simpl.
  - apply list_find_Some in Hf as (Hj & HPz & Hbefore).
    apply list_find_Some. split_and!.
    + destruct (decide (j = i)) as [->|Hne].
      * by apply list_lookup_insert_eq.
      * by rewrite list_lookup_insert_ne.
    + destruct (decide (j = i)) as [->|Hne]; [|done].
      rewrite Hi in Hj. injection Hj as ->. by apply Hxy.
    + intros k w Hk Hlt. destruct (decide (k = i)) as [->|Hne].
      * rewrite list_lookup_insert_eq in Hk by done. injection Hk as <-.
        intros HPy. apply (Hbefore i x Hi Hlt). by apply Hxy.
      * rewrite list_lookup_insert_ne in Hk by done. by apply (Hbefore k w).
  - apply list_find_None. apply list_find_None in Hf.
    apply Forall_insert; [done|].
    intros HPy. eapply Forall_lookup_1 in Hf; [|exact Hi]. apply Hf. by apply Hxy.
Qed.

Lemma list_find_insert_alike_Some (l : list A) (i j : nat) (x y z : A) :
  l !! i = Some x → (P x ↔ P y) → list_find P l = Some (j, z) →
  list_find P (<[i := y]> l) = Some (j, if decide (j = i) then y else z).
Proof. intros Hi Hxy Hf. rewrite (list_find_insert_alike l i x y Hi Hxy), Hf. done. Qed.
End ListFind.

Import NegotiationService.

Lemma round_of_true sid sup r :
  round_of sid sup r = true ↔
  NegotiationRound.session_id r = sid ∧ NegotiationRound.supplier_id r = sup.
Proof.
  unfold round_of. rewrite andb_true_iff, !bool_decide_eq_true. done.
Qed.

Lemma latest_round_from_Some sid sup rows : ∀ i best j r,
  latest_round_from sid sup i rows best = Some (j, r) →
  best = Some (j, r)
  ∨ ∃ k, j = (i + k)%nat ∧ rows !! k = Some r ∧ round_of sid sup r = true.
Proof.
  induction rows as [|x rows IH]; intros i best j r H; simpl in H; [by left|].
  apply IH in H as [H|(k & -> & Hk & Hm)].
  - destruct (round_of sid sup x) eqn:Hx; [|by left].
    destruct best as [[jb b]|].
    + destruct (NegotiationRound.round_number b <? NegotiationRound.round_number x);
        [|by left].
      injection H as <- <-. right. exists 0%nat. split_and!; [lia|done..].
    + injection H as <- <-. right. exists 0%nat. split_and!; [lia|done..].
  - right. exists (S k). split_and!; [lia|done..].
Qed.

Lemma latest_round_from_max sid sup rows : ∀ i best j r,
  latest_round_from sid sup i rows best = Some (j, r) →
  (∀ jb b, best = Some (jb, b) →
     NegotiationRound.round_number b ≤ NegotiationRound.round_number r)
  ∧ (∀ x, x ∈ rows → round_of sid sup x = true →
     NegotiationRound.round_number x ≤ NegotiationRound.round_number r).
Proof.
  induction rows as [|x rows IH]; intros i best j r H; simpl in H.
  - split; [|by intros ? ?%elem_of_nil]. intros jb b ->. injection H as _ ->. lia.
  - apply IH in H as [Hbest Hrows]. split.
    + intros jb b ->. destruct (round_of sid sup x); [|by eapply Hbest].
      destruct (NegotiationRound.round_number b <? NegotiationRound.round_number x) eqn:Hlt.
      * apply Z.ltb_lt in Hlt. specialize (Hbest _ _ eq_refl). lia.
      * by eapply Hbest.
    + intros y [->|Hy]%elem_of_cons Hm; [|by apply Hrows].
      rewrite Hm in Hbest. destruct best as [[jb b]|].
      * destruct (NegotiationRound.round_number b <? NegotiationRound.round_number x) eqn:Hlt.
        -- by eapply Hbest.
        -- apply Z.ltb_ge in Hlt. specialize (Hbest _ _ eq_refl). lia.
      * by eapply Hbest.
Qed.

Lemma latest_round_from_None sid sup rows : ∀ i best,
  latest_round_from sid sup i rows best = None →
  best = None ∧ ∀ x, x ∈ rows → round_of sid sup x = false.
Proof.
  induction rows as [|x rows IH]; intros i best H; simpl in H.
  - split; [done|]. by intros ? ?%elem_of_nil.
  - apply IH in H as [Hb Hrows].
    destruct (round_of sid sup x) eqn:Hx.
    + destruct best as [[jb b]|]; [|done].
      by destruct (NegotiationRound.round_number b <? NegotiationRound.round_number x).
    + split; [done|]. by intros y [->|Hy]%elem_of_cons; [|apply Hrows].
Qed.

(** What [latest_round] returns is a row of the table, for the session and
    supplier asked, with the greatest round number among those. *)
Lemma latest_round_Some db sid sup j r :
  latest_round db sid sup = Some (j, r) →
  negotiation_rounds db !! j = Some r
  ∧ NegotiationRound.session_id r = sid
  ∧ NegotiationRound.supplier_id r = sup
  ∧ ∀ x, x ∈ negotiation_rounds db → round_of sid sup x = true →
      NegotiationRound.round_number x ≤ NegotiationRound.round_number r.
Proof.
  intros H. pose proof (latest_round_from_max _ _ _ _ _ _ _ H) as [_ Hmax].
  apply latest_round_from_Some in H as [?|(k & -> & Hk & Hm)]; [done|].
  apply round_of_true in Hm as [? ?]. done.
Qed.

Lemma latest_round_None db sid sup :
  latest_round db sid sup = None →
  ∀ x, x ∈ negotiation_rounds db → round_of sid sup x = false.
Proof. intros H. by apply latest_round_from_None in H as [_ ?]. Qed.

(** ** The rounds of a reachable store belong to sessions that can be priced *)



Lemma elem_of_insert_inv {A} (l : list A) i y x :
  x ∈ <[i := y]> l → x = y ∨ x ∈ l.
Proof.
  intros (j & Hj)%list_elem_of_lookup.
  destruct (decide (j = i)) as [->|Hne].
  - destruct (decide (i < length l)%nat).
    + rewrite list_lookup_insert_eq in Hj by done. left. congruence.
    + rewrite list_insert_ge in Hj by lia. right. by eapply list_elem_of_lookup_2.
  - rewrite list_lookup_insert_ne in Hj by done. right. by eapply list_elem_of_lookup_2.
Qed.

Lemma find_session_Some db sid i s :
  find_session db sid = Some (i, s) →
  negotiation_sessions db !! i = Some s ∧ NegotiationSession.session_id s = sid.
Proof. intros (? & ? & _)%list_find_Some. done. Qed.




(** ** The decision table of the simulated supplier *)

Ltac cmp_cases :=
  repeat match goal with
  | |- context [Pos.compare_cont Eq ?a ?b] =>
      change (Pos.compare_cont Eq a b) with (Pos.compare a b)
  | H : context [Pos.compare_cont Eq ?a ?b] |- _ =>
      change (Pos.compare_cont Eq a b) with (Pos.compare a b) in H
  end;
  repeat match goal with
  | H : context [Z.compare ?a ?b] |- _ => destruct (Z.compare_spec a b); simpl in H
  | H : context [Pos.compare ?a ?b] |- _ => destruct (Pos.compare_spec a b); simpl in H
  | |- context [Z.compare ?a ?b] => destruct (Z.compare_spec a b); simpl
  | |- context [Pos.compare ?a ?b] => destruct (Pos.compare_spec a b); simpl
  end.



Lemma ltb_leb (x y : float) : (x <? y)%float = true → (x <=? y)%float = true.
Proof.
  rewrite leb_spec, ltb_spec. unfold SFltb, SFleb.
  by destruct (SFcompare (Prim2SF x) (Prim2SF y)) as [[]|].
Qed.




(** ** The round counter *)

Section LastFilter.
Context {A B : Type} (P : A → Prop) `{!∀ x, Decision (P x)} (f : A → B).


End LastFilter.








(** ** Acceptance, session creation and the fallback price *)

Lemma find_session_insert db si s s' sid rs :
  find_session db sid = Some (si, s) →
  NegotiationSession.session_id s' = NegotiationSession.session_id s →
  find_session (set_negotiation db (<[si := s']> (negotiation_sessions db)) rs) sid
  = Some (si, s').
Proof.
  intros Hf Hid. pose proof (find_session_Some _ _ _ _ Hf) as [Hsi Hsid].
  unfold find_session in *; simpl.
  rewrite (list_find_insert_alike_Some _ _ si si s s' s Hsi) by (done || by rewrite Hid).
  by rewrite decide_True.
Qed.


(** What a successful [accept_offer] leaves in the store. *)
Lemma accept_offer_ok db env sid sup notes si s ri latest :
  find_session db sid = Some (si, s) →
  latest_round db sid sup = Some (ri, latest) →
  (NegotiationRound.offered_price latest =? 0)%float = false →
  ∃ db' resp,
    accept_offer db env sid sup notes = (db', Ok resp)
    ∧ find_session db' sid
      = Some (si, with_acceptance s sup latest (utcnow (clock env 0))).
Proof.
  intros Hs Hl Hp. unfold accept_offer. rewrite Hs, Hl, Hp.
  eexists _, _. split; [done|]. by apply (find_session_insert db si s _ sid _ Hs).
Qed.

(** C5, as amended.  A successful [accept_offer] leaves the session in status
    "completed" with the winning supplier, the final price and the
    completion time set; it does not close the session to the operation:
    every later [accept_offer] on it, for a supplier whose latest round has a
    non-zero offered price, succeeds again and overwrites the winning
    supplier and the final price with that round's. *)
Theorem accept_offer_not_terminal
    (db : Database) (env : Env) (sid sup : string) (notes : option string)
    (si : nat) (s : NegotiationSession.t) (ri : nat) (latest : NegotiationRound.t) :
  find_session db sid = Some (si, s) →
  latest_round db sid sup = Some (ri, latest) →
  (NegotiationRound.offered_price latest =? 0)%float = false →
  ∃ db' resp s',
    accept_offer db env sid sup notes = (db', Ok resp)
    ∧ find_session db' sid = Some (si, s')
    ∧ NegotiationSession.status s' = "completed"
    ∧ NegotiationSession.winning_supplier_id s' = Some sup
    ∧ NegotiationSession.final_price s' = Some (NegotiationRound.offered_price latest)
    ∧ NegotiationSession.completed_at s' = Some (utcnow (clock env 0))
    ∧ ∀ env2 sup2 notes2 ri2 latest2,
        latest_round db' sid sup2 = Some (ri2, latest2) →
        (NegotiationRound.offered_price latest2 =? 0)%float = false →
        ∃ db'' resp2 s'',
          accept_offer db' env2 sid sup2 notes2 = (db'', Ok resp2)
          ∧ find_session db'' sid = Some (si, s'')
          ∧ NegotiationSession.status s'' = "completed"
          ∧ NegotiationSession.winning_supplier_id s'' = Some sup2
          ∧ NegotiationSession.final_price s''
            = Some (NegotiationRound.offered_price latest2).
Proof.
  intros Hs Hl Hp.
  destruct (accept_offer_ok db env sid sup notes si s ri latest Hs Hl Hp)
    as (db' & resp & Hcall & Hs').
  eexists db', resp, _. split_and!; [done..|].
  intros env2 sup2 notes2 ri2 latest2 Hl2 Hp2.
  destruct (accept_offer_ok db' env2 sid sup2 notes2 si _ ri2 latest2 Hs' Hl2 Hp2)
    as (db'' & resp2 & Hcall2 & Hs'').
  eexists db'', resp2, _. split_and!; done.
Qed.



(** ** The scenarios of the negotiation engine *)






(** Two suppliers have quoted; the offer of the first, then that of the
    second, is accepted on the same session. *)
Lemma accept_offer_not_terminal_witness :
  ∃ db' resp db'' resp2,
    accept_offer Scenario.both_quoted (Scenario.env "" 1.1 5000)
      "neg-5e55104a" "SUP-001" None = (db', Ok resp)
    ∧ accept_offer db' (Scenario.env "" 1.1 6000)
        "neg-5e55104a" "SUP-002" None = (db'', Ok resp2)
    ∧ Scenario.status_of db'' "neg-5e55104a" = Some "completed".
Proof.
  assert (∃ ri latest,
            latest_round Scenario.both_quoted "neg-5e55104a" "SUP-001" = Some (ri, latest)
            ∧ (NegotiationRound.offered_price latest =? 0)%float = false)
    as (ri & latest & Hlatest & Hprice) by (vm_compute; by eexists _, _).
  destruct (accept_offer_not_terminal Scenario.both_quoted (Scenario.env "" 1.1 5000)
              "neg-5e55104a" "SUP-001" None 0 (Scenario.session_after 2) ri latest
              eq_refl Hlatest Hprice)
    as (db' & resp & s' & Hcall & _ & _ & _ & _ & _ & Hagain).
  assert (∃ ri2 latest2,
            latest_round db' "neg-5e55104a" "SUP-002" = Some (ri2, latest2)
            ∧ (NegotiationRound.offered_price latest2 =? 0)%float = false)
    as (ri2 & latest2 & Hlatest2 & Hprice2).
  { revert Hcall. vm_compute. intros [= <- _]. by eexists _, _. }
  destruct (Hagain (Scenario.env "" 1.1 6000) "SUP-002" None ri2 latest2 Hlatest2 Hprice2)
    as (db'' & resp2 & s'' & Hcall2 & Hfind & Hstatus & _).
  exists db', resp, db'', resp2. split; [exact Hcall|]. split; [exact Hcall2|].
  unfold Scenario.status_of. rewrite Hfind. simpl. by rewrite Hstatus.
Defined.

(** C5 fails as stated: after SUP-001's offer of 4.50 is accepted, the
    session is "completed" (not "accepted"), and a second call accepting
    SUP-002 succeeds and replaces the final price by 4.20. *)
Lemma accept_offer_twice :
  let first :=
    accept_offer Scenario.both_quoted (Scenario.env "" 1.1 5000)
      "neg-5e55104a" "SUP-001" None in
  let second :=
    accept_offer first.1 (Scenario.env "" 1.1 6000) "neg-5e55104a" "SUP-002" None in
  is_ok first.2 = true
  ∧ Scenario.status_of first.1 "neg-5e55104a" = Some "completed"
  ∧ Scenario.final_price_of first.1 "neg-5e55104a" = Some (Some 4.5%float)
  ∧ is_ok second.2 = true
  ∧ Scenario.final_price_of second.1 "neg-5e55104a" = Some (Some 4.2%float).
Proof. vm_compute. by split_and!. Qed.





(** ** The mandate service *)

Import PaymentMandate AP2Service.

Lemma find_mandate_Some db id i m :
  find_mandate db id = Some (i, m) → payment_mandates db !! i = Some m ∧ mandate_id m = id.
Proof. intros (? & ? & _)%list_find_Some. done. Qed.

Lemma find_mandate_insert db i m m' id :
  find_mandate db id = Some (i, m) → mandate_id m' = mandate_id m →
  find_mandate (set_payment_mandates db (<[i := m']> (payment_mandates db))) id
  = Some (i, m').
Proof.
  intros Hf Hid. pose proof (find_mandate_Some _ _ _ _ Hf) as [Hi Hm].
  unfold find_mandate in *; simpl.
  rewrite (list_find_insert_alike_Some _ _ i i m m' m Hi) by (done || by rewrite Hid).
  by rewrite decide_True.
Qed.

Section Service.
Variables PrivateKey PublicKey : Type.
Variable public_key : PrivateKey → PublicKey.
Variable rs256_sign : PrivateKey → string → Claims → string.
Variable rs256_verify : PublicKey → string → Claims → string → bool.

#[local] Abbreviation create_mandate := (create_mandate PrivateKey rs256_sign).
#[local] Abbreviation jwt_decode := (jwt_decode PublicKey rs256_verify).
#[local] Abbreviation verify_mandate :=
  (verify_mandate PrivateKey PublicKey public_key rs256_verify).
#[local] Abbreviation execute_payment :=
  (execute_payment PrivateKey PublicKey public_key rs256_verify).

(** [jwt.decode] returns the claims exactly when the signature verifies, the
    token is not read before its [iat] second, is read strictly before its
    [exp] second, and names the audience. *)
Lemma jwt_decode_Decoded token key audience t :
  rs256_verify key (kid token) (payload token) (signature token) = true →
  iat (payload token) * 1000000 ≤ utcnow t →
  utcnow t < exp (payload token) * 1000000 →
  aud (payload token) = audience →
  jwt_decode token key audience t = Decoded (payload token).
Proof.
  intros Hsig Hiat Hexp Haud. unfold AP2Service.jwt_decode. rewrite Hsig. simpl.
  rewrite (proj2 (Z.ltb_ge _ _)) by done.
  rewrite (proj2 (Z.leb_gt _ _)) by done.
  by rewrite bool_decide_eq_true_2.
Qed.

Lemma jwt_decode_bad_signature token key audience t :
  rs256_verify key (kid token) (payload token) (signature token) = false →
  jwt_decode token key audience t = InvalidSignatureError.
Proof. intros Hsig. unfold AP2Service.jwt_decode. by rewrite Hsig. Qed.


(** What [verify_mandate] does on a mandate its clock reading finds
    expired. *)
Lemma verify_mandate_expired self db env id auth i m :
  find_mandate db id = Some (i, m) →
  expires_at m < utcnow (clock env 0) →
  verify_mandate self db env id auth
  = (set_payment_mandates db
       (<[i := with_status m "expired" (error_message m)]> (payment_mandates db)),
     Ok (invalid id "Mandate expired" (Some (expires_at m)))).
Proof.
  intros Hf Hexp. unfold AP2Service.verify_mandate. rewrite Hf.
  by rewrite (proj2 (Z.ltb_lt _ _)).
Qed.

(** C6, as amended.  A [verify_mandate] call whose clock reading, a datetime
    of microsecond resolution, is strictly after [expires_at] (so a call made
    at least one whole microsecond after it) returns [valid = false] and
    leaves the mandate with status "expired"; the outcome is fixed before the
    token is looked at. *)
Theorem verify_mandate_after_expiry
    (self : PrivateKey) (db : Database) (env : Env) (id : string)
    (auth : option string) (i : nat) (m : PaymentMandate.t) :
  find_mandate db id = Some (i, m) →
  (expires_at m + 1) * 1000 ≤ clock env 0 →
  ∃ db' v m',
    verify_mandate self db env id auth = (db', Ok v)
    ∧ valid v = false
    ∧ v = invalid id "Mandate expired" (Some (expires_at m))
    ∧ find_mandate db' id = Some (i, m')
    ∧ status m' = "expired"
    ∧ db' = set_payment_mandates db
              (<[i := with_status m "expired" (error_message m)]> (payment_mandates db)).
Proof.
  intros Hf Hlate.
  assert (expires_at m < utcnow (clock env 0)) as Hexp.
  { unfold utcnow. apply Z.lt_le_trans with ((expires_at m + 1) * 1000 / 1000).
    - rewrite Z.div_mul by done. lia.
    - by apply Z.div_le_mono. }
  rewrite (verify_mandate_expired self db env id auth i m Hf Hexp).
  eexists _, _, (with_status m "expired" (error_message m)). split_and!; try done.
  by apply (find_mandate_insert db i m).
Qed.

(** A token that verifies, read in its validity window on a mandate not yet
    expired: the claims come back, and only a non-empty merchant
    authorization changes the store. *)
Lemma verify_mandate_decoded self db env id auth i m :
  find_mandate db id = Some (i, m) →
  utcnow (clock env 0) ≤ expires_at m →
  rs256_verify (public_key self) (kid (signed_mandate_json m))
    (payload (signed_mandate_json m)) (signature (signed_mandate_json m)) = true →
  aud (payload (signed_mandate_json m)) = "ap2-payment-gateway" →
  iat (payload (signed_mandate_json m)) * 1000000 ≤ utcnow (clock env 1) →
  utcnow (clock env 1) < exp (payload (signed_mandate_json m)) * 1000000 →
  ∃ db' v,
    verify_mandate self db env id auth = (db', Ok v)
    ∧ valid v = true
    ∧ decoded_payload v = Some (payload (signed_mandate_json m))
    ∧ (truthy_str auth = true →
         vr_status v = Some "verified"
         ∧ ∃ m', find_mandate db' id = Some (i, m') ∧ status m' = "verified")
    ∧ (truthy_str auth = false → vr_status v = Some (status m) ∧ db' = db).
Proof.
  intros Hf Hfresh Hsig Haud Hiat Hexp.
  unfold AP2Service.verify_mandate. rewrite Hf.
  rewrite (proj2 (Z.ltb_ge _ _)) by done.
  rewrite (jwt_decode_Decoded _ _ _ _ Hsig Hiat Hexp Haud).
  destruct auth as [a|]; simpl.
  - destruct (bool_decide (a = "")); simpl.
    + eexists _, _. split_and!; done.
    + eexists _, _. split_and!; try done. intros _. split; [done|].
      exists (with_merchant_authorization m a). split; [|done].
      by apply (find_mandate_insert db i m).
  - eexists _, _. split_and!; done.
Qed.

(** C4, as amended.  On an existing mandate that its clock reading does not
    find expired: when the token's signature verifies against the service's
    public key, the audience claim is the gateway, and the library reads the
    token between its [iat] and strictly before its [exp], the call returns
    [valid = true] with the decoded claims; it sets the status to "verified"
    only when a non-empty merchant authorization is supplied, and otherwise
    leaves the store as it was.  When the signature does not verify, it sets
    the status to "failed" with an error message and returns
    [valid = false]. *)
Theorem verify_mandate_outcome
    (self : PrivateKey) (db : Database) (env : Env) (id : string)
    (auth : option string) (i : nat) (m : PaymentMandate.t) :
  find_mandate db id = Some (i, m) →
  utcnow (clock env 0) ≤ expires_at m →
  let token := signed_mandate_json m in
  let signature_ok :=
    rs256_verify (public_key self) (kid token) (payload token) (signature token) in
  (signature_ok = true →
   aud (payload token) = "ap2-payment-gateway" →
   iat (payload token) * 1000000 ≤ utcnow (clock env 1) →
   utcnow (clock env 1) < exp (payload token) * 1000000 →
   ∃ db' v,
     verify_mandate self db env id auth = (db', Ok v)
     ∧ valid v = true
     ∧ decoded_payload v = Some (payload token)
     ∧ (truthy_str auth = true →
          vr_status v = Some "verified"
          ∧ ∃ m', find_mandate db' id = Some (i, m') ∧ status m' = "verified")
     ∧ (truthy_str auth = false → vr_status v = Some (status m) ∧ db' = db))
  ∧ (signature_ok = false →
     ∃ db' v m',
       verify_mandate self db env id auth = (db', Ok v)
       ∧ valid v = false
       ∧ find_mandate db' id = Some (i, m')
       ∧ status m' = "failed"
       ∧ error_message m' = Some "Invalid JWT signature").
Proof.
  intros Hf Hfresh token signature_ok. subst signature_ok token. split.
  - intros Hsig Haud Hiat Hexp. by apply verify_mandate_decoded.
  - intros Hsig. unfold AP2Service.verify_mandate. rewrite Hf.
    rewrite (proj2 (Z.ltb_ge _ _)) by done. rewrite (jwt_decode_bad_signature _ _ _ _ Hsig).
    eexists _, _, (with_status m "failed" (Some "Invalid JWT signature")).
    split_and!; try done.
    by apply (find_mandate_insert db i m).
Qed.

(** An automatic verification that comes back valid has not touched the
    store. *)
Lemma verify_mandate_valid_unchanged self db env id db1 v :
  verify_mandate self db env id None = (db1, Ok v) → valid v = true → db1 = db.
Proof.
  unfold AP2Service.verify_mandate.
  destruct (find_mandate db id) as [[i m]|]; [|done].
  destruct (expires_at m <? utcnow (clock env 0)); [by intros [= <- <-]|].
  destruct (jwt_decode _ _ _ _); intros [= <- <-]; done.
Qed.

Lemma verify_mandate_found self db env id auth i m :
  find_mandate db id = Some (i, m) →
  ∃ db1 v, verify_mandate self db env id auth = (db1, Ok v).
Proof.
  intros Hf. unfold AP2Service.verify_mandate. rewrite Hf.
  destruct (expires_at m <? utcnow (clock env 0)); [by eexists _, _|].
  destruct (jwt_decode _ _ _ _); [|by eexists _, _..].
  destruct auth as [a|]; simpl; [destruct (bool_decide (a = ""))|]; by eexists _, _.
Qed.

(** C3.  [execute_payment] raises "not found" when the mandate is absent.  On
    a mandate it finds, it succeeds exactly when the status is "verified", or
    the status is "created" and the one automatic [verify_mandate] call
    returns valid; in any other status it raises "must be verified"; and
    after a success the mandate has status "executed", [executed_at] set and
    the given [po_number]. *)
Theorem execute_payment_outcome
    (self : PrivateKey) (db : Database) (env : Env) (id po : string) :
  let call := execute_payment self db env id po in
  (find_mandate db id = None →
     call = (db, Raise (ValueError ("Mandate " +:+ id +:+ " not found"))))
  ∧ (∀ i m, find_mandate db id = Some (i, m) →
      let auto := verify_mandate self db env id None in
      (is_ok call.2 = true ↔
         status m = "verified"
         ∨ (status m = "created" ∧ ∃ v, auto.2 = Ok v ∧ valid v = true))
      ∧ (status m ≠ "verified" → status m ≠ "created" →
           call = (db, Raise (ValueError
             ("Mandate must be verified before execution. Current status: "
              +:+ status m))))
      ∧ (∀ resp, call.2 = Ok resp →
           ∃ m' now,
             find_mandate call.1 id = Some (i, m')
             ∧ status m' = "executed"
             ∧ executed_at m' = Some now
             ∧ po_number m' = Some po
             ∧ ex_status resp = "executed")).
Proof.
  intros call. subst call. unfold AP2Service.execute_payment. split.
  - by intros ->.
  - intros i m Hf. cbv zeta. rewrite Hf.
    pose proof (find_mandate_Some _ _ _ _ Hf) as [Hi Hid].
    destruct (decide (status m = "verified")) as [Hv|Hv].
    { rewrite bool_decide_eq_true_2 by done. simpl. split_and!.
      - split; [by left|done].
      - done.
      - intros resp [= <-]. eexists (with_execution m _ po), _. split_and!; try done.
        by apply (find_mandate_insert db i m). }
    rewrite bool_decide_eq_false_2 by done. simpl.
    destruct (decide (status m = "created")) as [Hc|Hc].
    2:{ rewrite bool_decide_eq_false_2 by done. split_and!.
        - split; [done|]. intros [?|[? _]]; done.
        - done.
        - done. }
    rewrite bool_decide_eq_true_2 by done.
    destruct (verify_mandate_found self db env id None i m Hf) as (db1 & v & Hver).
    rewrite Hver. simpl.
    destruct (valid v) eqn:Hvalid; simpl.
    + pose proof (verify_mandate_valid_unchanged _ _ _ _ _ _ Hver Hvalid) as ->.
      rewrite Hi. simpl. split_and!.
      * split; [|done]. intros _. right. split; [done|]. by exists v.
      * done.
      * intros resp [= <-]. eexists (with_execution m _ po), _. split_and!; try done.
        by apply (find_mandate_insert db i m).
    + split_and!.
      * split; [done|]. intros [?|[_ (v' & [= <-] & Hv')]]; [done|congruence].
      * done.
      * done.
Qed.

Hypothesis rs256_sound : ∀ key key_id claims,
  rs256_verify (public_key key) key_id claims (rs256_sign key key_id claims) = true.


End Service.

(** ** The scenarios of the mandate service *)


(** What the store of scenario E holds. *)
Lemma created_mandate :
  ∃ m,
    find_mandate MandateScenario.created.1 "ap2-00000000aa" = Some (0%nat, m)
    ∧ status m = "created"
    ∧ expires_at m = MandateScenario.expiry
    ∧ Symbolic.rs256_verify "key-A" (kid (signed_mandate_json m))
        (payload (signed_mandate_json m)) (signature (signed_mandate_json m)) = true
    ∧ aud (payload (signed_mandate_json m)) = "ap2-payment-gateway"
    ∧ iat (payload (signed_mandate_json m)) = 1
    ∧ exp (payload (signed_mandate_json m)) = 86401.
Proof. vm_compute. by eexists. Qed.



(** A created mandate is executed through the automatic verification. *)
Lemma execute_payment_outcome_witness :
  ∃ m' now,
    find_mandate
      (MandateScenario.execute_payment "key-A" MandateScenario.created.1
         (MandateScenario.at_instant 3000000000) "ap2-00000000aa" "PO-1").1
      "ap2-00000000aa" = Some (0%nat, m')
    ∧ status m' = "executed"
    ∧ executed_at m' = Some now
    ∧ po_number m' = Some "PO-1".
Proof.
  destruct created_mandate as (m & Hfind & _).
  destruct (proj2 (execute_payment_outcome string string Symbolic.public_key
                     Symbolic.rs256_verify "key-A" MandateScenario.created.1
                     (MandateScenario.at_instant 3000000000) "ap2-00000000aa" "PO-1")
              0%nat m Hfind)
    as (_ & _ & Hdone).
  assert (∃ resp,
            (MandateScenario.execute_payment "key-A" MandateScenario.created.1
               (MandateScenario.at_instant 3000000000) "ap2-00000000aa" "PO-1").2
            = Ok resp) as (resp & Hcall) by (vm_compute; by eexists).
  destruct (Hdone resp Hcall) as (m' & now & H1 & H2 & H3 & H4 & _).
  by exists m', now.
Defined.

(** A merchant authorization is supplied: the mandate becomes verified. *)
Lemma verify_mandate_outcome_witness :
  ∃ db' v,
    MandateScenario.verify_mandate "key-A" MandateScenario.created.1
      (MandateScenario.at_instant 3000000000) "ap2-00000000aa" (Some "merchant-ok")
    = (db', Ok v)
    ∧ valid v = true
    ∧ MandateScenario.mandate_status db' "ap2-00000000aa" = Some "verified".
Proof.
  destruct created_mandate as (m & Hfind & _ & Hexpires & Hsig & Haud & Hiat & Hexp).
  destruct (proj1 (verify_mandate_outcome string string Symbolic.public_key
                     Symbolic.rs256_verify "key-A" MandateScenario.created.1
                     (MandateScenario.at_instant 3000000000) "ap2-00000000aa"
                     (Some "merchant-ok") 0%nat m Hfind
                     ltac:(rewrite Hexpires; by vm_compute)) Hsig Haud
              ltac:(rewrite Hiat; by vm_compute) ltac:(rewrite Hexp; by vm_compute))
    as (db' & v & Hcall & Hvalid & _ & Hverified & _).
  exists db', v. split; [exact Hcall|]. split; [exact Hvalid|].
  destruct (Hverified eq_refl) as (_ & m' & Hfind' & Hstatus).
  unfold MandateScenario.mandate_status. rewrite Hfind'. simpl. by rewrite Hstatus.
Defined.

(** C4 fails as stated: the token verifies and the audience matches, the
    call returns [valid = true] with the claims, and the status stays
    "created": no merchant authorization came with the call. *)
Lemma verify_mandate_keeps_status :
  let call :=
    MandateScenario.verify_mandate "key-A" MandateScenario.created.1
      (MandateScenario.at_instant 3000000000) "ap2-00000000aa" None in
  (∃ v, call.2 = Ok v ∧ valid v = true ∧ is_Some (decoded_payload v))
  ∧ MandateScenario.mandate_status call.1 "ap2-00000000aa" = Some "created".
Proof. vm_compute. split; [|done]. eexists. split_and!; by eauto. Qed.

(** One whole microsecond after [expires_at]: expired. *)
Lemma verify_mandate_after_expiry_witness :
  ∃ db' v,
    MandateScenario.verify_mandate "key-B" MandateScenario.created.1
      (MandateScenario.at_instant ((MandateScenario.expiry + 1) * 1000))
      "ap2-00000000aa" None = (db', Ok v)
    ∧ valid v = false
    ∧ MandateScenario.mandate_status db' "ap2-00000000aa" = Some "expired".
Proof.
  destruct created_mandate as (m & Hfind & _ & Hexpires & _).
  destruct (verify_mandate_after_expiry string string Symbolic.public_key
              Symbolic.rs256_verify "key-B" MandateScenario.created.1
              (MandateScenario.at_instant ((MandateScenario.expiry + 1) * 1000))
              "ap2-00000000aa" None 0%nat m Hfind
              ltac:(rewrite Hexpires; by vm_compute))
    as (db' & v & m' & Hcall & Hvalid & _ & Hfind' & Hstatus & _).
  exists db', v. split; [exact Hcall|]. split; [exact Hvalid|].
  unfold MandateScenario.mandate_status. rewrite Hfind'. simpl. by rewrite Hstatus.
Defined.

(** C6 fails as stated: one nanosecond after [expires_at] the clock still
    reads [expires_at], and the call goes on to the token.  Under the service
    that signed it the answer is the library's "Signature expired"; under a
    service holding another key the mandate ends "failed", not "expired". *)
Lemma verify_mandate_one_nanosecond_late :
  let late := MandateScenario.expiry * 1000 + 1 in
  let same_key :=
    MandateScenario.verify_mandate "key-A" MandateScenario.created.1
      (MandateScenario.at_instant late) "ap2-00000000aa" None in
  let other_key :=
    MandateScenario.verify_mandate "key-B" MandateScenario.created.1
      (MandateScenario.at_instant late) "ap2-00000000aa" None in
  MandateScenario.expiry * 1000 < late
  ∧ utcnow late = MandateScenario.expiry
  ∧ same_key.2 = Ok (invalid "ap2-00000000aa" "Signature expired" None)
  ∧ other_key.2 = Ok (invalid "ap2-00000000aa" "Invalid signature" None)
  ∧ MandateScenario.mandate_status other_key.1 "ap2-00000000aa" = Some "failed".
Proof. vm_compute. by split_and!. Qed.



(** ** Further properties of the negotiation engine *)

(** *** The latest round of a supplier *)


Lemma latest_round_from_none sid sup rows : ∀ i,
  (∀ x, x ∈ rows → round_of sid sup x = false) →
  latest_round_from sid sup i rows None = None.
Proof.
  induction rows as [|x rows IH]; intros i Hno; simpl; [done|].
  rewrite (Hno x) by left. apply IH. intros y Hy. apply Hno. by right.
Qed.


Lemma latest_round_never_quoted db sid sup :
  never_quoted db sid sup → latest_round db sid sup = None.
Proof. intros Hno. by apply latest_round_from_none. Qed.

(** *** Suppliers without a round *)

(** X1.  A supplier from whom the session holds no round can be neither
    countered nor accepted: [submit_counter] raises "No previous round
    found", [accept_offer] raises "No valid offer found", and the store is
    left as it was. *)
Theorem unquoted_supplier_rejected
    (db : Database) (env : Env) (sid sup : string) (c : float) (just : string)
    (notes : option string) :
  is_Some (find_session db sid) →
  never_quoted db sid sup →
  submit_counter db env sid sup c just
  = (db, Raise (ValueError ("No previous round found for supplier " +:+ sup)))
  ∧ accept_offer db env sid sup notes
    = (db, Raise (ValueError ("No valid offer found from supplier " +:+ sup))).
Proof.
  intros [[si s] Hs] Hno%latest_round_never_quoted.
  unfold submit_counter, accept_offer. by rewrite Hs, Hno.
Qed.

(** *** A counter-offer followed by an acceptance *)



(** *** Quotes are not capped by [max_rounds] *)



(** *** Sessions are open or completed *)

Lemma offers_kept_refl rows : offers_kept rows rows.
Proof. intros r Hr. by exists r. Qed.

Lemma offers_kept_app rows rows' extra :
  offers_kept rows rows' → offers_kept rows (rows' ++ extra).
Proof.
  intros H r Hr. destruct (H r Hr) as (r' & Hr' & ?). exists r'.
  split; [|done]. apply elem_of_app. by left.
Qed.

Lemma offers_kept_insert (rows : list NegotiationRound.t) i x y :
  rows !! i = Some x →
  NegotiationRound.session_id y = NegotiationRound.session_id x →
  NegotiationRound.supplier_id y = NegotiationRound.supplier_id x →
  NegotiationRound.offered_price y = NegotiationRound.offered_price x →
  NegotiationRound.total_value y = NegotiationRound.total_value x →
  offers_kept rows (<[i := y]> rows).
Proof.
  intros Hi H1 H2 H3 H4 r (j & Hj)%list_elem_of_lookup.
  destruct (decide (j = i)) as [->|Hne].
  - exists y. rewrite Hi in Hj. injection Hj as <-. split; [|done].
    apply list_elem_of_lookup. exists i. apply list_lookup_insert_eq.
    by eapply lookup_lt_Some.
  - exists r. split; [|done]. apply list_elem_of_lookup. exists j.
    by rewrite list_lookup_insert_ne.
Qed.

Lemma open_or_completed_kept db db' s :
  offers_kept (negotiation_rounds db) (negotiation_rounds db') →
  open_or_completed db s → open_or_completed db' s.
Proof.
  intros Hk [Hopen|(Hst & Hat & r & Hr & Hsid & Hw & Hp & Ht & Hnz)]; [by left|].
  right. split; [done|]. split; [done|].
  destruct (Hk r Hr) as (r' & Hr' & E1 & E2 & E3 & E4).
  exists r'. rewrite E1, E2, E3, E4. done.
Qed.

Lemma sessions_settled_insert db db' si s s' :
  sessions_settled db →
  negotiation_sessions db !! si = Some s →
  negotiation_sessions db' = <[si := s']> (negotiation_sessions db) →
  offers_kept (negotiation_rounds db) (negotiation_rounds db') →
  (open_or_completed db' s → open_or_completed db' s') →
  sessions_settled db'.
Proof.
  intros Hinv Hsi Hss Hk Hs' x Hx. rewrite Hss in Hx.
  apply elem_of_insert_inv in Hx as [->|Hx].
  - apply Hs'. apply (open_or_completed_kept db); [done|].
    apply Hinv. by eapply list_elem_of_lookup_2.
  - apply (open_or_completed_kept db); [done|]. by apply Hinv.
Qed.

Lemma run_sessions_settled db c : sessions_settled db → sessions_settled (run db c).1.
Proof.
  intros Hinv.
  destruct c as [env items tp td mr sids cb|env sid sup urg|env sid sup c j
                |env sid sup notes]; simpl.
  - unfold create_session. destruct (derive_target_price db items tp td); simpl; [|done].
    intros s [Hs|Hs%list_elem_of_singleton]%elem_of_app.
    + apply (open_or_completed_kept db); [apply offers_kept_refl|by apply Hinv].
    + subst s. by left.
  - unfold request_quote.
    destruct (find_session db sid) as [[si s]|] eqn:Hs; [|done].
    destruct (find_supplier db sup) as [[sj sp]|]; [|done].
    destruct (NegotiationSession.items_json s) as [|it rest]; [done|].
    destruct (PyFloat.of_int (Item.quantity it)) as [q|]; [|done].
    simpl. pose proof (find_session_Some _ _ _ _ Hs) as [Hsi Hsid].
    eapply (sessions_settled_insert db _ si s); [done..| |done].
    apply offers_kept_app, offers_kept_refl.
  - unfold submit_counter.
    destruct (find_session db sid) as [[si s]|] eqn:Hs; [|done].
    destruct (latest_round db sid sup) as [[ri latest]|] eqn:Hl; [|done].
    destruct (PyFloat.truediv _ _); [|done].
    destruct (supplier_response _ _ _) as [price st].
    destruct (NegotiationSession.items_json s) as [|it rest]; [done|].
    destruct (PyFloat.of_int (Item.quantity it)) as [q|]; [|done].
    simpl. pose proof (find_session_Some _ _ _ _ Hs) as [Hsi Hsid].
    pose proof (latest_round_Some _ _ _ _ _ Hl) as (Hri & _).
    eapply (sessions_settled_insert db _ si s); [done..| |done].
    apply offers_kept_app. by eapply offers_kept_insert.
  - unfold accept_offer.
    destruct (find_session db sid) as [[si s]|] eqn:Hs; [|done].
    destruct (latest_round db sid sup) as [[ri latest]|] eqn:Hl; [|done].
    destruct (NegotiationRound.offered_price latest =? 0)%float eqn:Hnz; [done|].
    simpl. pose proof (find_session_Some _ _ _ _ Hs) as [Hsi Hsid].
    pose proof (latest_round_Some _ _ _ _ _ Hl) as (Hri & Hrs & Hrp & _).
    eapply (sessions_settled_insert db _ si s); [done..| |].
    + by eapply offers_kept_insert.
    + intros _. right. simpl. split; [done|]. split; [done|].
      exists (with_round_status latest "accepted"). simpl. split_and!; try done.
      * apply list_elem_of_lookup. exists ri. apply list_lookup_insert_eq.
        by eapply lookup_lt_Some.
      * congruence.
      * by rewrite Hrp.
Qed.

(** X4.  In every store the service reaches from one without sessions, each
    session is either "open" with no winner, final price, total or
    completion time, or "completed" with all four set, the final price and
    total being those of a non-zero-priced round of the winning supplier in
    that session.  No call leaves a session in any other status. *)
Theorem sessions_open_or_completed
    (db0 : Database) (calls : list Call) (s : NegotiationSession.t) :
  negotiation_sessions db0 = [] →
  s ∈ negotiation_sessions (exec db0 calls) →
  open_or_completed (exec db0 calls) s.
Proof.
  intros Hnil. revert s. change (sessions_settled (exec db0 calls)).
  assert (sessions_settled db0) as Hinv.
  { intros s Hs. rewrite Hnil in Hs. by apply elem_of_nil in Hs. }
  clear Hnil. revert db0 Hinv.
  induction calls as [|c calls IH]; intros db Hinv; [done|].
  apply IH. by apply run_sessions_settled.
Qed.

(** *** Rounds are well formed *)

Lemma find_session_kept_insert db si s s' rs sid :
  negotiation_sessions db !! si = Some s →
  NegotiationSession.session_id s' = NegotiationSession.session_id s →
  is_Some (find_session db sid) →
  is_Some (find_session (set_negotiation db (<[si := s']> (negotiation_sessions db)) rs) sid).
Proof.
  intros Hsi Hid Hf. unfold find_session in *; simpl.
  rewrite (list_find_insert_alike _ _ si s s' Hsi) by (by rewrite Hid).
  by apply fmap_is_Some.
Qed.

Lemma find_session_kept_app db s' rs sid :
  is_Some (find_session db sid) →
  is_Some (find_session (set_negotiation db (negotiation_sessions db ++ [s']) rs) sid).
Proof.
  intros [[i s] Hf]. unfold find_session in *; simpl.
  exists (i, s). by apply list_find_app_l.
Qed.

Lemma round_well_formed_kept db db' r :
  (∀ sid, is_Some (find_session db sid) → is_Some (find_session db' sid)) →
  suppliers db' = suppliers db →
  round_well_formed db r → round_well_formed db' r.
Proof.
  intros Hs Hsup (H1 & H2 & H3). split; [by apply Hs|]. split; [|done].
  unfold find_supplier in *. by rewrite Hsup.
Qed.

Lemma run_rounds_well_formed db c : rounds_well_formed db → rounds_well_formed (run db c).1.
Proof.
  intros [Hcur Hinv].
  destruct c as [env items tp td mr sids cb|env sid sup urg|env sid sup c j
                |env sid sup notes]; simpl.
  - unfold create_session. destruct (derive_target_price db items tp td); simpl; [|done].
    split; simpl.
    + intros s [Hs|Hs%list_elem_of_singleton]%elem_of_app; [by apply Hcur|by subst s].
    + intros r Hr. apply (round_well_formed_kept db); [|done|by apply Hinv].
      intros sid. apply find_session_kept_app.
  - unfold request_quote.
    destruct (find_session db sid) as [[si s]|] eqn:Hs; [|done].
    destruct (find_supplier db sup) as [[sj sp]|] eqn:Hsup; [|done].
    destruct (NegotiationSession.items_json s) as [|it rest]; [done|].
    destruct (PyFloat.of_int (Item.quantity it)) as [q|]; [|done].
    simpl. pose proof (find_session_Some _ _ _ _ Hs) as [Hsi Hsid].
    assert (0 ≤ NegotiationSession.current_round s) as Hc
      by (apply Hcur; by eapply list_elem_of_lookup_2).
    split; simpl.
    + intros x [->|Hx]%elem_of_insert_inv; [simpl; lia|by apply Hcur].
    + intros r [Hr|Hr%list_elem_of_singleton]%elem_of_app.
      * apply (round_well_formed_kept db); [|done|by apply Hinv].
        intros sid'. by apply (find_session_kept_insert db si s).
      * subst r. split_and!; simpl; try done; try (by left); try lia.
        all: try (apply (find_session_kept_insert db si s); [done..|]; by rewrite Hs).
        all: try (unfold find_supplier in *; simpl; by rewrite Hsup).
  - unfold submit_counter.
    destruct (find_session db sid) as [[si s]|] eqn:Hs; [|done].
    destruct (latest_round db sid sup) as [[ri latest]|] eqn:Hl; [|done].
    destruct (PyFloat.truediv _ _); [|done].
    destruct (supplier_response _ _ _) as [price st].
    destruct (NegotiationSession.items_json s) as [|it rest]; [done|].
    destruct (PyFloat.of_int (Item.quantity it)) as [q|]; [|done].
    simpl. pose proof (find_session_Some _ _ _ _ Hs) as [Hsi Hsid].
    pose proof (latest_round_Some _ _ _ _ _ Hl) as (Hri & Hrs & Hrp & _).
    assert (round_well_formed db latest) as (L1 & L2 & L3 & L4 & L5 & L6)
      by (apply Hinv; by eapply list_elem_of_lookup_2).
    assert (∀ sid',
      is_Some (find_session db sid') →
      is_Some (find_session
        (set_negotiation db
           (<[si := with_current_round s (NegotiationRound.round_number latest + 1)]>
              (negotiation_sessions db))
           (<[ri := with_counter latest c j]> (negotiation_rounds db)
            ++ [{| NegotiationRound.round_id := "rnd-" +:+ uuid4_hex env;
                   NegotiationRound.session_id := sid;
                   NegotiationRound.supplier_id := sup;
                   NegotiationRound.round_number := NegotiationRound.round_number latest + 1;
                   NegotiationRound.offer_type := "counter";
                   NegotiationRound.offered_price := price;
                   NegotiationRound.total_value := PyFloat.round2 (price * q)%float;
                   NegotiationRound.counter_price := None;
                   NegotiationRound.justification := None;
                   NegotiationRound.status := "received";
                   NegotiationRound.response_received_at := Some (utcnow (clock env 0));
                   NegotiationRound.created_at := server_now env |}])) sid')) as Hkept.
    { intros sid'. by apply (find_session_kept_insert db si s). }
    split; simpl.
    + intros x [->|Hx]%elem_of_insert_inv; [simpl; lia|by apply Hcur].
    + intros r [Hr|Hr%list_elem_of_singleton]%elem_of_app.
      * apply elem_of_insert_inv in Hr as [->|Hr].
        -- apply (round_well_formed_kept db); [done..|].
           split_and!; simpl; try done. right; left. done.
        -- apply (round_well_formed_kept db); [done..|]. by apply Hinv.
      * subst r. apply (round_well_formed_kept db); [done..|].
        split_and!; simpl; try done; try (by left); try (by right); try lia.
        all: try (by rewrite <- Hrs).
        all: try (by rewrite <- Hrp).
  - unfold accept_offer.
    destruct (find_session db sid) as [[si s]|] eqn:Hs; [|done].
    destruct (latest_round db sid sup) as [[ri latest]|] eqn:Hl; [|done].
    destruct (NegotiationRound.offered_price latest =? 0)%float; [done|].
    simpl. pose proof (find_session_Some _ _ _ _ Hs) as [Hsi Hsid].
    pose proof (latest_round_Some _ _ _ _ _ Hl) as (Hri & Hrs & Hrp & _).
    assert (round_well_formed db latest) as (L1 & L2 & L3 & L4 & L5 & L6)
      by (apply Hinv; by eapply list_elem_of_lookup_2).
    split; simpl.
    + intros x [->|Hx]%elem_of_insert_inv; [|by apply Hcur].
      simpl. apply Hcur. by eapply list_elem_of_lookup_2.
    + intros r Hr.
      apply (round_well_formed_kept db); [|done|].
      { intros sid'. by apply (find_session_kept_insert db si s). }
      apply elem_of_insert_inv in Hr as [->|Hr]; [|by apply Hinv].
      split_and!; simpl; try done. right; right. done.
Qed.

(** X5.  In every store the service reaches from one without sessions and
    rounds, each round names a session and a supplier the store holds, is
    numbered from 1, is of type "initial" or "counter", has a response time,
    and is "received" with no counter-offer on it, "countered" with one, or
    "accepted"; no round is left "pending", "rejected" or "expired". *)
Theorem rounds_stay_well_formed
    (db0 : Database) (calls : list Call) (r : NegotiationRound.t) :
  negotiation_sessions db0 = [] →
  negotiation_rounds db0 = [] →
  r ∈ negotiation_rounds (exec db0 calls) →
  round_well_formed (exec db0 calls) r.
Proof.
  intros Hs0 Hr0.
  assert (rounds_well_formed db0) as Hinv.
  { split; intros x Hx; [rewrite Hs0 in Hx|rewrite Hr0 in Hx]; by apply elem_of_nil in Hx. }
  clear Hs0 Hr0. revert db0 Hinv r.
  induction calls as [|c calls IH]; intros db Hinv r; [by apply Hinv|].
  apply IH. by apply run_rounds_well_formed.
Qed.

(** *** The target discount *)

(** X6.  A target discount is never applied.  Whatever [target_discount_percent]
    is given, a [create_session] call that succeeds stores and returns the
    target price exactly as it was passed ([None] when none was passed): the
    derivation from the product's unit cost either is skipped or raises. *)
Theorem target_discount_never_applied
    (db : Database) (env : Env) (items : list Item.t)
    (target_price target_discount_percent : option float) (max_rounds : Z)
    (supplier_ids : option (list string)) (created_by : string)
    (db' : Database) (resp : CreateSessionResponse) :
  create_session db env items target_price target_discount_percent max_rounds
    supplier_ids created_by = (db', Ok resp) →
  cs_target_price resp = target_price
  ∧ ∃ s, negotiation_sessions db' = negotiation_sessions db ++ [s]
       ∧ NegotiationSession.target_price s = target_price.
Proof.
  unfold create_session.
  assert (∀ tp, derive_target_price db items target_price target_discount_percent = Ok tp →
                tp = target_price) as Hsame.
  { intros tp. unfold derive_target_price.
    destruct (_ && _); [|by intros [= <-]].
    destruct items as [|it rest]; [done|].
    destruct (find_product db (Item.sku it)) as [[j p]|]; [|by intros [= <-]].
    destruct (Product.unit_cost p) as [cost|]; [|by intros [= <-]].
    destruct (cost =? 0); [by intros [= <-]|done]. }
  destruct (derive_target_price _ _ _ _) as [tp|e]; [|done].
  rewrite (Hsame tp eq_refl). intros [= <- <-]. simpl. split; [done|].
  by eexists.
Qed.

(** *** The suppliers a session is opened for *)


(** ** The comparison of offers *)

(** *** Order on floats *)

Lemma SFleb_trans (x y z : spec_float) :
  SFleb x y = true → SFleb y z = true → SFleb x z = true.
Proof.
  unfold SFleb.
  destruct x as [sx|sx| |sx mx ex], y as [sy|sy| |sy my ey], z as [sz|sz| |sz mz ez];
    simpl; try discriminate;
    try destruct sx; try destruct sy; try destruct sz; simpl; try discriminate; try reflexivity.
  all: intros H1 H2; cmp_cases; try discriminate; try reflexivity; try lia.
Qed.

Lemma leb_trans (x y z : float) :
  (x <=? y)%float = true → (y <=? z)%float = true → (x <=? z)%float = true.
Proof. rewrite !leb_spec. apply SFleb_trans. Qed.

(** Positive floats are comparable. *)
Lemma positive_total (x y : float) :
  (0 <? x)%float = true → (0 <? y)%float = true →
  (x <? y)%float = false → (y <=? x)%float = true.
Proof.
  rewrite !ltb_spec, leb_spec. unfold SFltb, SFleb.
  rewrite (SFcompare_antisym (Prim2SF x) (Prim2SF y)).
  change (Prim2SF 0) with (S754_zero false).
  destruct (Prim2SF x) as [sx|sx| |sx mx ex], (Prim2SF y) as [sy|sy| |sy my ey];
    simpl; try discriminate;
    try destruct sx; try destruct sy; simpl; try discriminate; try reflexivity.
  intros _ _.
  destruct (ex ?= ey); simpl; try done; destruct (Pos.compare_cont Eq mx my); done.
Qed.

(** *** [list.sort] *)

Section Sort.
Context {A : Type} (key : A → float).

Lemma sort_insert_Permutation x l : sort_insert key x l ≡ₚ x :: l.
Proof.
  induction l as [|y l IH]; simpl; [done|].
  destruct (key x <? key y)%float; [done|]. rewrite IH. apply Permutation_swap.
Qed.

Lemma list_sort_Permutation l : list_sort key l ≡ₚ l.
Proof.
  unfold list_sort.
  assert (∀ acc, fold_left (λ sorted x, sort_insert key x sorted) l acc ≡ₚ l ++ acc) as H.
  { induction l as [|x l IH]; intros acc; simpl; [done|].
    rewrite IH, sort_insert_Permutation. by rewrite Permutation_middle. }
  by rewrite H, app_nil_r.
Qed.

#[local] Abbreviation ascending := (ascending key).
#[local] Abbreviation positive := (positive key).

Lemma sort_insert_sorted x l :
  positive x → Forall positive l →
  StronglySorted ascending l → StronglySorted ascending (sort_insert key x l).
Proof.
  intros Hx Hpos Hs. induction Hs as [|y l Hs IH Hy]; simpl.
  - repeat constructor.
  - apply Forall_cons in Hpos as [Hpy Hpos].
    destruct (key x <? key y)%float eqn:Hlt.
    + constructor; [by constructor|].
      apply ltb_leb in Hlt. constructor; [done|].
      eapply Forall_impl; [exact Hy|]. intros z Hz. by eapply leb_trans.
    + constructor; [by apply IH|].
      rewrite sort_insert_Permutation. constructor; [|done].
      by apply positive_total.
Qed.

Lemma list_sort_sorted l :
  Forall positive l → StronglySorted ascending (list_sort key l).
Proof.
  unfold list_sort. intros Hpos.
  assert (∀ acc, Forall positive acc → StronglySorted ascending acc →
            StronglySorted ascending
              (fold_left (λ sorted x, sort_insert key x sorted) l acc)) as H.
  { induction Hpos as [|x l Hx Hpos IH]; intros acc Hacc Hs; simpl; [done|].
    apply IH.
    - rewrite sort_insert_Permutation. by constructor.
    - by apply sort_insert_sorted. }
  apply H; constructor.
Qed.

End Sort.

(** *** The dictionary of latest offers *)

Section Dict.
Context {V : Type}.
Implicit Types d : list (string * V).

Lemma dict_get_None d k : dict_get d k = None ↔ k ∉ d.*1.
Proof.
  induction d as [|[k' v] d IH]; simpl.
  - split; [intros _; apply not_elem_of_nil|done].
  - destruct (decide (k' = k)) as [->|Hne].
    + split; [done|]. intros []. by left.
    + rewrite IH, not_elem_of_cons. split; [done|]. by intros [_ ?].
Qed.

Lemma dict_get_Some d k v : dict_get d k = Some v → (k, v) ∈ d.
Proof.
  induction d as [|[k' v'] d IH]; simpl; [done|].
  destruct (decide (k' = k)) as [->|Hne].
  - intros [= ->]. by left.
  - intros H. right. by apply IH.
Qed.

Lemma dict_set_keys d k v :
  (dict_set d k v).*1 = if decide (k ∈ d.*1) then d.*1 else d.*1 ++ [k].
Proof.
  induction d as [|[k' v'] d IH]; [done|].
  cbn [dict_set]. destruct (decide (k' = k)) as [->|Hne].
  - rewrite !fmap_cons. cbn [fst]. rewrite decide_True by left. done.
  - rewrite !fmap_cons, IH. cbn [fst]. destruct (decide (k ∈ d.*1)) as [Hin|Hin].
    + rewrite decide_True by (by right). done.
    + rewrite decide_False; [done|]. rewrite not_elem_of_cons. by split.
Qed.

Lemma dict_set_NoDup d k v : NoDup d.*1 → NoDup (dict_set d k v).*1.
Proof.
  intros Hd. rewrite dict_set_keys. destruct (decide (k ∈ d.*1)); [done|].
  apply NoDup_app. split; [done|]. split; [|apply NoDup_singleton].
  intros x Hx ->%list_elem_of_singleton. done.
Qed.

Lemma elem_of_dict_set_inv d k v k' v' :
  NoDup d.*1 → (k', v') ∈ dict_set d k v →
  (k' = k ∧ v' = v) ∨ (k' ≠ k ∧ (k', v') ∈ d).
Proof.
  induction d as [|[k0 v0] d IH]; simpl; intros Hd.
  - intros [= -> ->]%list_elem_of_singleton. by left.
  - apply NoDup_cons in Hd as [Hk0 Hd].
    destruct (decide (k0 = k)) as [->|Hne].
    + intros [[= -> ->]|H]%elem_of_cons; [by left|].
      right. split; [|by right]. intros ->. apply Hk0.
      apply list_elem_of_fmap. by exists (k, v').
    + intros [[= -> ->]|H]%elem_of_cons.
      * right. split; [done|by left].
      * destruct (IH Hd H) as [?|[? ?]]; [by left|]. right. split; [done|by right].
Qed.

Lemma elem_of_dict_set_new d k v : (k, v) ∈ dict_set d k v.
Proof.
  induction d as [|[k0 v0] d IH]; simpl; [by left|].
  destruct (decide (k0 = k)); [by left|by right].
Qed.

Lemma elem_of_dict_set_old d k v k' v' :
  k' ≠ k → (k', v') ∈ d → (k', v') ∈ dict_set d k v.
Proof.
  intros Hne. induction d as [|[k0 v0] d IH]; simpl; [by intros ?%elem_of_nil|].
  intros [[= -> ->]|H]%elem_of_cons.
  - rewrite decide_False by done. by left.
  - destruct (decide (k0 = k)); right; [done|by apply IH].
Qed.

Lemma dict_get_elem_of d k v : NoDup d.*1 → (k, v) ∈ d → dict_get d k = Some v.
Proof.
  induction d as [|[k0 v0] d IH]; simpl; [by intros _ ?%elem_of_nil|].
  intros [Hk0 Hd]%NoDup_cons [[= -> ->]|H]%elem_of_cons.
  - by rewrite decide_True.
  - rewrite decide_False; [by apply IH|]. intros ->. apply Hk0.
    apply list_elem_of_fmap. by exists (k, v).
Qed.

End Dict.

(** *** The loop over the rounds *)

Lemma keep_latest_step ratings db seen d r :
  offers_of_seen ratings db seen d →
  offers_of_seen ratings db (seen ++ [r]) (keep_latest ratings db d r).
Proof.
  intros (Hnd & Hent & Hall). unfold keep_latest.
  assert (∀ x, x ∈ seen ++ [r] → x ∈ seen ∨ x = r) as Hsplit.
  { intros x [?|?%list_elem_of_singleton]%elem_of_app; [by left|by right]. }
  assert (∀ x, x ∈ seen → x ∈ seen ++ [r]) as Hold.
  { intros x Hx. apply elem_of_app. by left. }
  assert (r ∈ seen ++ [r]) as Hnew.
  { apply elem_of_app. right. by left. }
  destruct (offered r) eqn:Hoff.
  2:{ split; [done|]. split.
      - intros k o Hko. destruct (Hent k o Hko) as (r0 & Hr0 & H1 & H2 & H3 & Hmax).
        exists r0. split_and!; try done; [by apply Hold|].
        intros r' [Hr'| ->]%Hsplit Ho; [by apply Hmax|congruence].
      - intros r' [Hr'| ->]%Hsplit Ho; [by apply Hall|congruence]. }
  set (k := NegotiationRound.supplier_id r).
  destruct (dict_get d k) as [o|] eqn:Hget.
  - apply dict_get_Some in Hget as Hin.
    assert (k ∈ d.*1) as Hk by (apply list_elem_of_fmap; by exists (k, o)).
    destruct (Hent k o Hin) as (r0 & Hr0 & H1 & H2 & H3 & Hmax).
    assert (of_round_number o = NegotiationRound.round_number r0) as Hn by (by subst o).
    destruct (of_round_number o <? NegotiationRound.round_number r) eqn:Hlt.
    + apply Z.ltb_lt in Hlt. split; [by apply dict_set_NoDup|]. split.
      * intros k' o' [[-> ->]|[Hne Hko]]%elem_of_dict_set_inv; [| |done].
        -- exists r. split_and!; try done.
           intros r' [Hr'| ->]%Hsplit Ho Hk'; [|done].
           specialize (Hmax r' Hr' Ho Hk'). lia.
        -- destruct (Hent k' o' Hko) as (r1 & Hr1 & G1 & G2 & G3 & Hmax1).
           exists r1. split_and!; try done; [by apply Hold|].
           intros r' [Hr'| ->]%Hsplit Ho Hk'; [by apply Hmax1|done].
      * intros r' Hr' Ho. rewrite dict_set_keys, decide_True by done.
        apply Hsplit in Hr' as [Hr'| ->]; [by apply Hall|done].
    + apply Z.ltb_ge in Hlt. split; [done|]. split.
      * intros k' o' Hko.
        destruct (Hent k' o' Hko) as (r1 & Hr1 & G1 & G2 & G3 & Hmax1).
        exists r1. split_and!; try done; [by apply Hold|].
        intros r' [Hr'| ->]%Hsplit Ho Hk'; [by apply Hmax1|].
        assert (k' = k) as -> by (by rewrite <- Hk').
        rewrite (dict_get_elem_of d k o' Hnd Hko) in Hget. injection Hget as ->.
        rewrite G3 in Hlt. simpl in Hlt. lia.
      * intros r' [Hr'| ->]%Hsplit Ho; [by apply Hall|done].
  - apply dict_get_None in Hget. split; [by apply dict_set_NoDup|]. split.
    + intros k' o' [[-> ->]|[Hne Hko]]%elem_of_dict_set_inv; [| |done].
      * exists r. split_and!; try done.
        intros r' [Hr'| ->]%Hsplit Ho Hk'; [|done].
        destruct Hget. rewrite <- Hk'. by apply Hall.
      * destruct (Hent k' o' Hko) as (r1 & Hr1 & G1 & G2 & G3 & Hmax1).
        exists r1. split_and!; try done; [by apply Hold|].
        intros r' [Hr'| ->]%Hsplit Ho Hk'; [by apply Hmax1|done].
    + intros r' Hr' Ho. rewrite dict_set_keys, decide_False by done.
      apply Hsplit in Hr' as [Hr'| ->].
      * apply elem_of_app. left. by apply Hall.
      * apply elem_of_app. right. by left.
Qed.

Lemma latest_offers_spec ratings db sid :
  offers_of_seen ratings db
    (filter (λ r, NegotiationRound.session_id r = sid) (negotiation_rounds db))
    (latest_offers ratings db sid).
Proof.
  unfold latest_offers.
  assert (∀ rows seen d, offers_of_seen ratings db seen d →
            offers_of_seen ratings db (seen ++ rows)
              (fold_left (keep_latest ratings db) rows d)) as H.
  { induction rows as [|r rows IH]; intros seen d Hd; simpl.
    - by rewrite app_nil_r.
    - rewrite (assoc_L (++) seen [r] rows : seen ++ r :: rows = (seen ++ [r]) ++ rows).
      apply IH. by apply keep_latest_step. }
  apply (H _ [] []). split; [constructor|]. split.
  - by intros k o ?%elem_of_nil.
  - by intros r ?%elem_of_nil.
Qed.

(** *** The ranking *)

Lemma with_adjusted_score_unscored o o' :
  with_adjusted_score o = Ok o' → unscored o' = unscored o.
Proof.
  unfold with_adjusted_score. destruct (PyFloat.truediv _ _); [|done]. by intros [= <-].
Qed.

Lemma score_all_unscored l : ∀ scored,
  score_all l = Ok scored → unscored <$> scored = unscored <$> l.
Proof.
  induction l as [|o l IH]; simpl; intros scored.
  - by intros [= <-].
  - destruct (with_adjusted_score o) as [o'|] eqn:Ho; [|done].
    destruct (score_all l) as [rest|]; [|done].
    intros [= <-]. rewrite !fmap_cons, (IH rest eq_refl).
    by rewrite (with_adjusted_score_unscored _ _ Ho).
Qed.

Lemma rank_unscored criteria l ranked :
  rank criteria l = Ok ranked → unscored <$> ranked ≡ₚ unscored <$> l.
Proof.
  unfold rank. destruct (bool_decide (criteria = "price")).
  { intros [= <-]. by rewrite list_sort_Permutation. }
  destruct (bool_decide (criteria = "quality_adjusted")).
  - destruct (score_all l) as [scored|] eqn:Hs; [|done].
    intros [= <-]. rewrite list_sort_Permutation. by rewrite (score_all_unscored _ _ Hs).
  - intros [= <-]. by rewrite list_sort_Permutation.
Qed.

Lemma latest_offers_unscored ratings db sid :
  unscored <$> (latest_offers ratings db sid).*2 = (latest_offers ratings db sid).*2
  ∧ of_supplier_id <$> (latest_offers ratings db sid).*2 = (latest_offers ratings db sid).*1.
Proof.
  destruct (latest_offers_spec ratings db sid) as (_ & Hent & _).
  revert Hent. generalize (latest_offers ratings db sid). intros d Hent.
  assert (Forall (λ ko, unscored ko.2 = ko.2 ∧ of_supplier_id ko.2 = ko.1) d) as Hd.
  { apply Forall_forall. intros [k o] Hko.
    destruct (Hent k o Hko) as (r & _ & _ & Hk & -> & _). done. }
  clear Hent. induction Hd as [|[k o] d [H1 H2] Hd [IH1 IH2]]; [done|].
  rewrite !fmap_cons. simpl in H1, H2. cbn [fst snd]. rewrite H1, H2, IH1, IH2. done.
Qed.

(** What a comparison that returns has ranked: the latest offers, scored or
    not, in some order. *)
Lemma compare_offers_ranked ratings db sid criteria resp :
  compare_offers ratings db sid criteria = Ok resp →
  co_offers_count resp = length (co_ranked_suppliers resp)
  ∧ co_best_offer resp = head (co_ranked_suppliers resp)
  ∧ unscored <$> co_ranked_suppliers resp ≡ₚ (latest_offers ratings db sid).*2
  ∧ of_supplier_id <$> co_ranked_suppliers resp ≡ₚ (latest_offers ratings db sid).*1.
Proof.
  unfold compare_offers.
  destruct (find_session db sid) as [[si s]|]; [|done].
  destruct (rank criteria _) as [ranked|] eqn:Hrank; [|done].
  intros [= <-]. simpl. split; [done|]. split; [done|].
  apply rank_unscored in Hrank.
  destruct (latest_offers_unscored ratings db sid) as [Hu Hk].
  rewrite Hu in Hrank. split; [done|].
  rewrite <- Hk, <- Hrank, <- list_fmap_compose. done.
Qed.

(** A ranked offer is the offer of a latest round. *)
Lemma ranked_offer_round ratings db sid criteria resp o :
  compare_offers ratings db sid criteria = Ok resp →
  o ∈ co_ranked_suppliers resp →
  ∃ r, latest_offered db sid r ∧ unscored o = offer_of ratings db r.
Proof.
  intros (_ & _ & Hrank & _)%compare_offers_ranked Ho.
  destruct (latest_offers_spec ratings db sid) as (_ & Hent & _).
  assert (unscored o ∈ (latest_offers ratings db sid).*2) as Hin.
  { rewrite <- Hrank. apply list_elem_of_fmap. by exists o. }
  apply list_elem_of_fmap in Hin as ([k o0] & Ho0 & Hko). simpl in Ho0.
  destruct (Hent k o0 Hko) as (r & [Hr Hsid]%list_elem_of_filter & Hoff & Hsup & -> & Hmax).
  exists r. split; [|done]. split_and!; try done.
  intros r' Hr' Hsid' Hsup' Hoff'. apply Hmax; [|done|congruence].
  by apply list_elem_of_filter.
Qed.

(** The supplier of a round that counts is ranked. *)
Lemma offered_round_ranked ratings db sid criteria resp r :
  compare_offers ratings db sid criteria = Ok resp →
  r ∈ negotiation_rounds db → NegotiationRound.session_id r = sid → offered r = true →
  NegotiationRound.supplier_id r ∈ of_supplier_id <$> co_ranked_suppliers resp.
Proof.
  intros (_ & _ & _ & Hkeys)%compare_offers_ranked Hr Hsid Hoff.
  destruct (latest_offers_spec ratings db sid) as (_ & _ & Hall).
  rewrite Hkeys. apply Hall; [|done]. by apply list_elem_of_filter.
Qed.

(** X8.  Whatever the criteria, a comparison that returns lists each supplier
    with an offer in the session exactly once, with the price, total and
    number of that supplier's highest-numbered round among its rounds that
    are "received" and priced above 0; rounds that were countered or
    accepted do not count.  The count is the length of the ranking and the
    best offer its head. *)
Theorem compare_offers_latest_received
    (ratings : Supplier.t → Ratings) (db : Database) (sid criteria : string)
    (resp : CompareResponse) :
  compare_offers ratings db sid criteria = Ok resp →
  co_offers_count resp = length (co_ranked_suppliers resp)
  ∧ co_best_offer resp = head (co_ranked_suppliers resp)
  ∧ NoDup (of_supplier_id <$> co_ranked_suppliers resp)
  ∧ (∀ o, o ∈ co_ranked_suppliers resp →
       ∃ r, latest_offered db sid r ∧ unscored o = offer_of ratings db r)
  ∧ (∀ r, r ∈ negotiation_rounds db → NegotiationRound.session_id r = sid →
       offered r = true →
       NegotiationRound.supplier_id r ∈ of_supplier_id <$> co_ranked_suppliers resp).
Proof.
  intros Hcall.
  destruct (compare_offers_ranked _ _ _ _ _ Hcall) as (Hcount & Hbest & _ & Hkeys).
  destruct (latest_offers_spec ratings db sid) as (Hnd & _ & _).
  split; [exact Hcount|]. split; [exact Hbest|]. split_and!.
  - by rewrite Hkeys.
  - intros o Ho. by eapply ranked_offer_round.
  - intros r Hr Hsid Hoff. by eapply offered_round_ranked.
Qed.

Lemma ltb_irrefl (x : float) : (x <? x)%float = false.
Proof.
  destruct (x <? x)%float eqn:H; [|done].
  pose proof (ltb_not_leb _ _ H). pose proof (ltb_leb _ _ H). congruence.
Qed.

(** X9.  A comparison by price never fails on an existing session: every offer
    it lists is priced above 0, the ranking is in ascending order of price,
    and no listed offer is cheaper than the best one. *)
Theorem compare_offers_by_price
    (ratings : Supplier.t → Ratings) (db : Database) (sid : string) :
  is_Some (find_session db sid) →
  ∃ resp,
    compare_offers ratings db sid "price" = Ok resp
    ∧ Forall (positive of_offered_price) (co_ranked_suppliers resp)
    ∧ StronglySorted (ascending of_offered_price) (co_ranked_suppliers resp)
    ∧ ∀ best o, co_best_offer resp = Some best → o ∈ co_ranked_suppliers resp →
        (of_offered_price best <=? of_offered_price o)%float = true.
Proof.
  intros [[si s] Hs]. unfold compare_offers, rank. rewrite Hs. simpl.
  eexists. split; [done|]. simpl.
  destruct (latest_offers_spec ratings db sid) as (_ & Hent & _).
  assert (Forall (positive of_offered_price) (latest_offers ratings db sid).*2) as Hpos.
  { apply Forall_forall. intros o ([k o0] & -> & Hko)%list_elem_of_fmap. simpl.
    destruct (Hent k o0 Hko) as (r & _ & Hoff & _ & -> & _).
    unfold offered in Hoff. apply andb_true_iff in Hoff as [_ Hp]. done. }
  pose proof (list_sort_sorted of_offered_price _ Hpos) as Hsorted.
  assert (Forall (positive of_offered_price)
            (list_sort of_offered_price (latest_offers ratings db sid).*2)) as Hpos'.
  { by rewrite list_sort_Permutation. }
  split; [done|]. split; [done|].
  intros best o Hbest Ho.
  destruct (list_sort of_offered_price _) as [|b rest]; [done|].
  injection Hbest as ->.
  apply StronglySorted_inv in Hsorted as [_ Hrest].
  apply Forall_cons in Hpos' as [Hb _].
  apply elem_of_cons in Ho as [->|Ho].
  - apply positive_total; [done..|]. apply ltb_irrefl.
  - by eapply (proj1 (Forall_forall _ _) Hrest).
Qed.

(** *** A counter-offer followed by a comparison *)



(** ** Further properties of the mandate service *)

Section Mandates.
Variables PrivateKey PublicKey : Type.
Variable public_key : PrivateKey → PublicKey.
Variable rs256_sign : PrivateKey → string → Claims → string.
Variable rs256_verify : PublicKey → string → Claims → string → bool.

#[local] Abbreviation create_mandate := (create_mandate PrivateKey rs256_sign).
#[local] Abbreviation jwt_decode := (jwt_decode PublicKey rs256_verify).
#[local] Abbreviation verify_mandate :=
  (verify_mandate PrivateKey PublicKey public_key rs256_verify).
#[local] Abbreviation execute_payment :=
  (execute_payment PrivateKey PublicKey public_key rs256_verify).
#[local] Abbreviation execute_tool :=
  (FinanceData.execute_tool PrivateKey PublicKey public_key rs256_sign rs256_verify).
#[local] Abbreviation Call := (MandateCalls.Call PrivateKey).
#[local] Abbreviation exec :=
  (MandateCalls.exec PrivateKey PublicKey public_key rs256_sign rs256_verify).
#[local] Abbreviation run :=
  (MandateCalls.run PrivateKey PublicKey public_key rs256_sign rs256_verify).

(** *** Execution *)

(** What a successful [execute_payment] found and left. *)
Lemma execute_payment_ok self db env id po db' resp :
  execute_payment self db env id po = (db', Ok resp) →
  ∃ i m now,
    find_mandate db id = Some (i, m)
    ∧ (status m = "verified" ∨ status m = "created")
    ∧ db' = set_payment_mandates db
              (<[i := with_execution m now po]> (payment_mandates db))
    ∧ find_mandate db' id = Some (i, with_execution m now po)
    ∧ ex_amount resp = amount m ∧ ex_currency resp = currency m
    ∧ ex_supplier_id resp = supplier_id m ∧ ex_po_number resp = po
    ∧ ex_executed_at resp = now.
Proof.
  unfold AP2Service.execute_payment.
  destruct (find_mandate db id) as [[i m]|] eqn:Hf; [|done].
  pose proof (find_mandate_Some _ _ _ _ Hf) as [Hi Hid].
  destruct (bool_decide (status m = "verified")) eqn:Hv; simpl.
  - apply bool_decide_eq_true in Hv. intros [= <- <-].
    eexists i, m, _. split_and!; try done; [by left|].
    by apply (find_mandate_insert db i m).
  - destruct (bool_decide (status m = "created")) eqn:Hc; [|done].
    apply bool_decide_eq_true in Hc.
    destruct (verify_mandate self db env id None) as [db1 [v|e]] eqn:Hver; [|done].
    destruct (valid v) eqn:Hvalid; simpl; [|done].
    pose proof (verify_mandate_valid_unchanged _ _ _ _ _ _ _ _ _ _ Hver Hvalid) as ->.
    rewrite Hi. simpl. intros [= <- <-].
    eexists i, m, _. split_and!; try done; [by right|].
    by apply (find_mandate_insert db i m).
Qed.

(** X11.  A mandate is executed at most once in a row: after a successful
    [execute_payment], every further [execute_payment] on it, by any service
    instance, is refused with "Current status: executed" and leaves the
    store as it is. *)
Theorem execute_payment_only_once
    (self self' : PrivateKey) (db db' : Database) (env env' : Env)
    (id po po' : string) (resp : ExecuteResponse) :
  execute_payment self db env id po = (db', Ok resp) →
  execute_payment self' db' env' id po'
  = (db', Raise (ValueError
       "Mandate must be verified before execution. Current status: executed")).
Proof.
  intros (i & m & now & _ & _ & _ & Hf & _)%execute_payment_ok.
  unfold AP2Service.execute_payment. rewrite Hf. done.
Qed.

(** *** Verification *)

(** X12.  [verify_mandate] never looks at the mandate's status.  On any mandate it
    finds, it returns a verdict, keeps what was signed, and: with a valid
    verdict it reports the claims and sets the status to "verified" when a
    non-empty merchant authorization is given, leaving the row as it was
    otherwise; with an invalid verdict it reports an error and overwrites
    the status with "expired" or "failed", whatever it was before, an
    executed mandate included. *)
Theorem verify_mandate_verdict
    (self : PrivateKey) (db : Database) (env : Env) (id : string)
    (auth : option string) (i : nat) (m : PaymentMandate.t) :
  find_mandate db id = Some (i, m) →
  ∃ db' v m',
    verify_mandate self db env id auth = (db', Ok v)
    ∧ find_mandate db' id = Some (i, m')
    ∧ same_terms m m'
    ∧ (valid v = true →
         error v = None ∧ is_Some (decoded_payload v) ∧ vr_status v = Some (status m')
         ∧ (truthy_str auth = true ∧ status m' = "verified"
            ∨ truthy_str auth = false ∧ db' = db ∧ m' = m))
    ∧ (valid v = false →
         is_Some (error v) ∧ decoded_payload v = None
         ∧ (status m' = "expired" ∨ status m' = "failed")).
Proof.
  intros Hf. unfold AP2Service.verify_mandate. rewrite Hf.
  assert (∀ m', mandate_id m' = mandate_id m →
            find_mandate (set_payment_mandates db (<[i := m']> (payment_mandates db))) id
            = Some (i, m')) as Hins.
  { intros m' Hid. by apply (find_mandate_insert db i m). }
  destruct (expires_at m <? utcnow (clock env 0)).
  { eexists _, _, _. split; [done|]. split; [by apply Hins|].
    split; [done|]. split; [done|]. intros _. split_and!; by eauto. }
  destruct (jwt_decode _ _ _ _) as [claims| | |msg].
  - destruct auth as [a|]; simpl.
    + destruct (bool_decide (a = "")); simpl.
      * eexists _, _, m. split_and!; try done. intros _. split_and!; by eauto.
      * eexists _, _, _. split; [done|]. split; [by apply Hins|].
        split; [done|]. split; [|done]. intros _. split_and!; by eauto.
    + eexists _, _, m. split_and!; try done. intros _. split_and!; by eauto.
  - eexists _, _, _. split; [done|]. split; [by apply Hins|].
    split; [done|]. split; [done|]. intros _. split_and!; by eauto.
  - eexists _, _, _. split; [done|]. split; [by apply Hins|].
    split; [done|]. split; [done|]. intros _. split_and!; by eauto.
  - eexists _, _, _. split; [done|]. split; [by apply Hins|].
    split; [done|]. split; [done|]. intros _. split_and!; by eauto.
Qed.

(** X13.  A verification with a merchant authorization makes any mandate
    executable, an executed one included: when the token verifies in its
    validity window and the authorization is not empty, [verify_mandate]
    sets the status to "verified" whatever it was, and the next
    [execute_payment], by any service instance, goes through and records the
    purchase order it is given. *)
Theorem reverified_mandate_executes
    (self self' : PrivateKey) (db : Database) (env env' : Env) (id po : string)
    (auth : option string) (i : nat) (m : PaymentMandate.t) :
  find_mandate db id = Some (i, m) →
  utcnow (clock env 0) ≤ expires_at m →
  rs256_verify (public_key self) (kid (signed_mandate_json m))
    (payload (signed_mandate_json m)) (signature (signed_mandate_json m)) = true →
  aud (payload (signed_mandate_json m)) = "ap2-payment-gateway" →
  iat (payload (signed_mandate_json m)) * 1000000 ≤ utcnow (clock env 1) →
  utcnow (clock env 1) < exp (payload (signed_mandate_json m)) * 1000000 →
  truthy_str auth = true →
  ∃ db1 v db2 paid m2,
    verify_mandate self db env id auth = (db1, Ok v)
    ∧ valid v = true
    ∧ execute_payment self' db1 env' id po = (db2, Ok paid)
    ∧ ex_po_number paid = po
    ∧ ex_amount paid = amount m
    ∧ find_mandate db2 id = Some (i, m2)
    ∧ status m2 = "executed"
    ∧ po_number m2 = Some po
    ∧ executed_at m2 = Some (utcnow (clock env' 0)).
Proof.
  intros Hf Hfresh Hsig Haud Hiat Hexp Hauth.
  unfold AP2Service.verify_mandate. rewrite Hf.
  rewrite (proj2 (Z.ltb_ge _ _)) by done.
  rewrite (jwt_decode_Decoded _ _ _ _ _ _ Hsig Hiat Hexp Haud).
  destruct auth as [a|]; [|done]. rewrite Hauth.
  pose proof (find_mandate_insert db i m (with_merchant_authorization m a) id Hf eq_refl) as Hf1.
  eexists _, _, _, _,
    (with_execution (with_merchant_authorization m a) (utcnow (clock env' 0)) po).
  split; [done|]. split; [done|].
  unfold AP2Service.execute_payment. rewrite Hf1. simpl.
  split; [done|]. split_and!; try done.
  by apply (find_mandate_insert _ i (with_merchant_authorization m a)).
Qed.

(** *** Expiry *)

(** X14.  Expiry is final.  Once a [verify_mandate] call has read a clock after
    [expires_at], the mandate is "expired" and stays unusable: no service
    instance can execute it, and every verification whose clock reads no
    earlier answers "Mandate expired" again and leaves the store as it
    is. *)
Theorem expired_mandate_stays_expired
    (self self' : PrivateKey) (db : Database) (env env' : Env) (id po : string)
    (auth auth' : option string) (i : nat) (m : PaymentMandate.t) :
  find_mandate db id = Some (i, m) →
  expires_at m < utcnow (clock env 0) →
  let db1 := (verify_mandate self db env id auth).1 in
  execute_payment self' db1 env' id po
  = (db1, Raise (ValueError
       "Mandate must be verified before execution. Current status: expired"))
  ∧ (utcnow (clock env 0) ≤ utcnow (clock env' 0) →
     verify_mandate self' db1 env' id auth'
     = (db1, Ok (invalid id "Mandate expired" (Some (expires_at m))))).
Proof.
  intros Hf Hexp db1. subst db1.
  rewrite (verify_mandate_expired _ _ _ _ self db env id auth i m Hf Hexp). simpl.
  pose proof (find_mandate_insert db i m (with_status m "expired" (error_message m)) id
                Hf eq_refl) as Hf1.
  split.
  - unfold AP2Service.execute_payment. rewrite Hf1. done.
  - intros Hlater.
    rewrite (verify_mandate_expired _ _ _ _ self' _ env' id auth' i _ Hf1) by (simpl; lia).
    simpl. by rewrite list_insert_insert_eq.
Qed.

(** *** A service instance holding another key *)

(** The automatic verification of [execute_payment] under a key that does
    not verify the signature. *)
Lemma execute_payment_bad_signature self db env id po i m :
  find_mandate db id = Some (i, m) →
  status m = "created" →
  utcnow (clock env 0) ≤ expires_at m →
  rs256_verify (public_key self) (kid (signed_mandate_json m))
    (payload (signed_mandate_json m)) (signature (signed_mandate_json m)) = false →
  execute_payment self db env id po
  = (set_payment_mandates db
       (<[i := with_status m "failed" (Some "Invalid JWT signature")]> (payment_mandates db)),
     Raise (ValueError "Mandate verification failed: Invalid signature")).
Proof.
  intros Hf Hst Hfresh Hsig.
  unfold AP2Service.execute_payment, AP2Service.verify_mandate. rewrite Hf, Hst. simpl.
  rewrite (proj2 (Z.ltb_ge _ _)) by done.
  by rewrite (jwt_decode_bad_signature _ _ _ _ _ _ Hsig).
Qed.

(** X15.  An execution attempted by a service instance whose public key does not
    verify the mandate's signature fails, and it spoils the mandate: the
    automatic verification has already committed the status "failed" when
    [execute_payment] raises, so every later [execute_payment], the signing
    instance's included, is refused with "Current status: failed". *)
Theorem execute_payment_under_another_key
    (self self' : PrivateKey) (db : Database) (env env' : Env) (id po po' : string)
    (i : nat) (m : PaymentMandate.t) :
  find_mandate db id = Some (i, m) →
  status m = "created" →
  utcnow (clock env 0) ≤ expires_at m →
  rs256_verify (public_key self) (kid (signed_mandate_json m))
    (payload (signed_mandate_json m)) (signature (signed_mandate_json m)) = false →
  let db1 :=
    set_payment_mandates db
      (<[i := with_status m "failed" (Some "Invalid JWT signature")]> (payment_mandates db)) in
  execute_payment self db env id po
  = (db1, Raise (ValueError "Mandate verification failed: Invalid signature"))
  ∧ execute_payment self' db1 env' id po'
    = (db1, Raise (ValueError
         "Mandate must be verified before execution. Current status: failed")).
Proof.
  intros Hf Hst Hfresh Hsig db1. subst db1. split.
  - by apply execute_payment_bad_signature.
  - pose proof (find_mandate_insert db i m
                  (with_status m "failed" (Some "Invalid JWT signature")) id Hf eq_refl)
      as Hf1.
    unfold AP2Service.execute_payment. rewrite Hf1. done.
Qed.



(** *** What the calls do to the mandate table *)

Lemma verify_mandate_row_update self db env id auth :
  row_update db (verify_mandate self db env id auth).1.
Proof.
  unfold AP2Service.verify_mandate.
  destruct (find_mandate db id) as [[i m]|] eqn:Hf; [|by left].
  pose proof (find_mandate_Some _ _ _ _ Hf) as [Hi _].
  assert (∀ m', status_step m m' →
            row_update db (set_payment_mandates db (<[i := m']> (payment_mandates db))))
    as Hupd.
  { intros m' Hm'. right. by exists i, m, m'. }
  destruct (expires_at m <? utcnow (clock env 0)).
  { simpl. apply Hupd. split; [done|]. left. by left. }
  destruct (jwt_decode _ _ _ _) as [claims| | |msg]; simpl.
  - destruct auth as [a|]; simpl; [|by left].
    destruct (bool_decide (a = "")) eqn:Ha; simpl; [by left|].
    apply Hupd. split; [done|]. right. left. simpl. by rewrite Ha.
  - apply Hupd. split; [done|]. left. by left.
  - apply Hupd. split; [done|]. left. by right.
  - apply Hupd. split; [done|]. left. by right.
Qed.

Lemma execute_payment_row_update self db env id po :
  row_update db (execute_payment self db env id po).1.
Proof.
  destruct (execute_payment self db env id po) as [db' [resp|e]] eqn:Hcall; simpl.
  - apply execute_payment_ok in Hcall as (i & m & now & Hf & _ & -> & _).
    pose proof (find_mandate_Some _ _ _ _ Hf) as [Hi _].
    right. exists i, m, (with_execution m now po). split; [done|]. split; [|done].
    split; [done|]. right. right. simpl. by eauto.
  - revert Hcall. unfold AP2Service.execute_payment.
    destruct (find_mandate db id) as [[i m]|] eqn:Hf; [|intros [= <- _]; by left].
    destruct (negb (bool_decide (status m = "verified"))); [|done].
    destruct (bool_decide (status m = "created")); [|intros [= <- _]; by left].
    pose proof (verify_mandate_row_update self db env id None) as Hver.
    destruct (verify_mandate self db env id None) as [db1 [v|e1]]; simpl in Hver.
    + destruct (negb (valid v)); [|done]. by intros [= <- _].
    + by intros [= <- _].
Qed.

Lemma same_terms_trans m1 m2 m3 : same_terms m1 m2 → same_terms m2 m3 → same_terms m1 m3.
Proof.
  intros (A1 & A2 & A3 & A4 & A5 & A6 & A7 & A8) (B1 & B2 & B3 & B4 & B5 & B6 & B7 & B8).
  unfold same_terms. split_and!; congruence.
Qed.

Lemma create_mandate_rows self db env sup amount cur details sid po consent :
  let db' := (create_mandate self db env sup amount cur details sid po consent).1 in
  suppliers db' = suppliers db
  ∧ (db' = db
     ∨ ∃ m, payment_mandates db' = payment_mandates db ++ [m]
          ∧ mandate_consistent db m ∧ status m = "created").
Proof.
  unfold AP2Service.create_mandate. destruct consent; simpl; [|by split; [|left]].
  destruct (find_supplier db sup) as [[j x]|] eqn:Hsup; simpl; [|by split; [|left]].
  split; [done|]. right. eexists. split; [done|]. split; [|done].
  unfold mandate_consistent. simpl. rewrite Hsup.
  split_and!; first [done|by eexists|by left].
Qed.

Lemma run_rows db c j m :
  payment_mandates db !! j = Some m →
  ∃ m', payment_mandates (run db c) !! j = Some m'
        ∧ (m' = m ∨ status_step m m').
Proof.
  intros Hj.
  assert (∀ db', row_update db db' →
            ∃ m', payment_mandates db' !! j = Some m' ∧ (m' = m ∨ status_step m m'))
    as Hupd.
  { intros db' [->|(i & x & x' & Hi & Hstep & ->)]; [exists m; by eauto|]. simpl.
    destruct (decide (j = i)) as [->|Hne].
    - exists x'. rewrite list_lookup_insert_eq by (by eapply lookup_lt_Some).
      split; [done|]. right. congruence.
    - exists m. rewrite list_lookup_insert_ne by done. by eauto. }
  destruct c as [self env sup amount cur details sid po consent|self env id auth
                |self env id po]; simpl.
  - destruct (create_mandate_rows self db env sup amount cur details sid po consent)
      as [_ [->|(x & -> & _)]]; [exists m; by eauto|].
    exists m. split; [|by left]. by apply lookup_app_l_Some.
  - apply Hupd, verify_mandate_row_update.
  - apply Hupd, execute_payment_row_update.
Qed.

(** X17.  No call of the mandate service deletes a mandate or alters what was
    signed: through any sequence of creations, verifications and
    executions, by whatever service instances, a row keeps its place, its
    identifier, supplier, amount, currency, session, signed token, creation
    time and expiry. *)
Theorem signed_terms_never_change
    (db : Database) (calls : list Call) (j : nat) (m : PaymentMandate.t) :
  payment_mandates db !! j = Some m →
  ∃ m', payment_mandates (exec db calls) !! j = Some m' ∧ same_terms m m'.
Proof.
  revert db m. induction calls as [|c calls IH]; intros db m Hj; simpl.
  - by exists m.
  - destruct (run_rows db c j m Hj) as (m1 & Hj1 & Hstep).
    destruct (IH _ _ Hj1) as (m' & Hj' & Hterms). exists m'. split; [done|].
    destruct Hstep as [->|[Hstep _]]; [done|]. by eapply same_terms_trans.
Qed.





(** *** Each service keeps to its tables *)

Lemma negotiation_run_frame db (c : NegotiationService.Call) :
  let db' := (NegotiationService.run db c).1 in
  suppliers db' = suppliers db ∧ products db' = products db
  ∧ payment_mandates db' = payment_mandates db.
Proof.
  destruct c as [env items tp td mr sids cb|env sid sup urg|env sid sup c j
                |env sid sup notes]; simpl.
  - unfold create_session. by destruct (derive_target_price db items tp td).
  - unfold request_quote.
    destruct (find_session db sid) as [[si s]|]; [|done].
    destruct (find_supplier db sup) as [[sj sp]|]; [|done].
    destruct (NegotiationSession.items_json s) as [|it rest]; [done|].
    by destruct (PyFloat.of_int (Item.quantity it)).
  - unfold submit_counter.
    destruct (find_session db sid) as [[si s]|]; [|done].
    destruct (latest_round db sid sup) as [[ri latest]|]; [|done].
    destruct (PyFloat.truediv _ _); [|done].
    destruct (supplier_response _ _ _) as [price st].
    destruct (NegotiationSession.items_json s) as [|it rest]; [done|].
    by destruct (PyFloat.of_int (Item.quantity it)).
  - unfold accept_offer.
    destruct (find_session db sid) as [[si s]|]; [|done].
    destruct (latest_round db sid sup) as [[ri latest]|]; [|done].
    by destruct (NegotiationRound.offered_price latest =? 0)%float.
Qed.

Lemma mandate_run_frame db c :
  suppliers (run db c) = suppliers db ∧ products (run db c) = products db
  ∧ negotiation_sessions (run db c) = negotiation_sessions db
  ∧ negotiation_rounds (run db c) = negotiation_rounds db.
Proof.
  assert (∀ db', row_update db db' →
            suppliers db' = suppliers db ∧ products db' = products db
            ∧ negotiation_sessions db' = negotiation_sessions db
            ∧ negotiation_rounds db' = negotiation_rounds db) as Hupd.
  { by intros db' [->|(i & x & x' & _ & _ & ->)]. }
  destruct c as [self env sup amount cur details sid po consent|self env id auth
                |self env id po]; simpl.
  - unfold AP2Service.create_mandate. destruct consent; [|done]. simpl.
    by destruct (find_supplier db sup).
  - apply Hupd, verify_mandate_row_update.
  - apply Hupd, execute_payment_row_update.
Qed.

(** X19.  Each service writes its own tables only.  No sequence of calls to the
    negotiation service changes a supplier, a product or a mandate, and no
    sequence of calls to the mandate service changes a supplier, a product,
    a session or a round: a payment, executed or failed, leaves no trace on
    the negotiation it pays for. *)
Theorem services_keep_to_their_tables
    (db : Database) (negotiation : list NegotiationService.Call) (mandates : list Call) :
  (suppliers (NegotiationService.exec db negotiation) = suppliers db
   ∧ products (NegotiationService.exec db negotiation) = products db
   ∧ payment_mandates (NegotiationService.exec db negotiation) = payment_mandates db)
  ∧ (suppliers (exec db mandates) = suppliers db
     ∧ products (exec db mandates) = products db
     ∧ negotiation_sessions (exec db mandates) = negotiation_sessions db
     ∧ negotiation_rounds (exec db mandates) = negotiation_rounds db).
Proof.
  split.
  - revert db. induction negotiation as [|c calls IH]; intros db; [done|].
    unfold NegotiationService.exec in *. simpl.
    destruct (negotiation_run_frame db c) as (E1 & E2 & E3).
    destruct (IH (NegotiationService.run db c).1) as (H1 & H2 & H3).
    split_and!; congruence.
  - revert db. induction mandates as [|c calls IH]; intros db; [done|].
    simpl. destruct (mandate_run_frame db c) as (E1 & E2 & E3 & E4).
    destruct (IH (run db c)) as (H1 & H2 & H3 & H4).
    split_and!; congruence.
Qed.

(** *** Consent at the tool *)


(** *** Creation followed by execution *)

Hypothesis rs256_sound : ∀ key key_id claims,
  rs256_verify (public_key key) key_id claims (rs256_sign key key_id claims) = true.


End Mandates.

(** ** Further scenarios *)

(** *** The negotiation engine *)

Lemma quoted_session :
  find_session Scenario.quoted Walkthrough.session = Some (0%nat, Scenario.session_after 1).
Proof. reflexivity. Qed.


Lemma second_supplier_never_quoted :
  never_quoted Scenario.quoted Walkthrough.session "SUP-002".
Proof.
  intros r Hr. change (r ∈ [Scenario.first_quote]) in Hr.
  apply list_elem_of_singleton in Hr. by subst r.
Qed.

(** SUP-002 has not quoted in the session: it can be neither countered nor
    accepted. *)
Lemma unquoted_supplier_rejected_witness :
  submit_counter Scenario.quoted (Scenario.env "00000004" 1.1 4000) Walkthrough.session
    "SUP-002" 3.8 "Target budget"
  = (Scenario.quoted, Raise (ValueError "No previous round found for supplier SUP-002"))
  ∧ accept_offer Scenario.quoted (Scenario.env "00000004" 1.1 4000) Walkthrough.session
      "SUP-002" None
    = (Scenario.quoted, Raise (ValueError "No valid offer found from supplier SUP-002")).
Proof.
  exact (unquoted_supplier_rejected Scenario.quoted (Scenario.env "00000004" 1.1 4000)
           Walkthrough.session "SUP-002" 3.8 "Target budget" None
           (mk_is_Some _ _ quoted_session) second_supplier_never_quoted).
Defined.



(** The session whose quote was accepted is "completed" at the price of
    SUP-001's round. *)
Lemma sessions_open_or_completed_witness :
  ∃ s,
    negotiation_sessions Walkthrough.accepted !! 0%nat = Some s
    ∧ NegotiationSession.status s = "completed"
    ∧ NegotiationSession.final_price s = Some 4.5%float
    ∧ open_or_completed Walkthrough.accepted s.
Proof.
  eexists. split; [reflexivity|]. split; [reflexivity|]. split; [reflexivity|].
  apply (sessions_open_or_completed Scenario.store); [reflexivity|].
  apply list_elem_of_lookup. exists 0%nat. reflexivity.
Defined.

(** The quote of SUP-002, countered at 4.00, is a well-formed round. *)
Lemma rounds_stay_well_formed_witness :
  ∃ r,
    negotiation_rounds Scenario.two_suppliers !! 1%nat = Some r
    ∧ NegotiationRound.status r = "countered"
    ∧ round_well_formed Scenario.two_suppliers r.
Proof.
  eexists. split; [reflexivity|]. split; [reflexivity|].
  apply (rounds_stay_well_formed Scenario.store); [reflexivity..|].
  apply list_elem_of_lookup. exists 1%nat. reflexivity.
Defined.

(** A discount of 10 % is asked for: the session is created without a
    target price. *)
Lemma target_discount_never_applied_witness :
  ∃ db' resp,
    Walkthrough.discounted = (db', Ok resp) ∧ cs_target_price resp = None.
Proof.
  destruct Walkthrough.discounted as [db' [resp|e]] eqn:Hcall;
    [|vm_compute in Hcall; discriminate].
  exists db', resp. split; [reflexivity|].
  exact (proj1 (target_discount_never_applied Scenario.store
                  (Scenario.env "5e55104e" 1.1 1000) [Item.mk "X999" 10] None
                  (Some 10%float) 3 None "NegotiationAgent" db' resp Hcall)).
Defined.


(** *** The comparison of offers *)

(** After the counter-offer to SUP-002, two suppliers are listed, each
    once. *)
Lemma compare_offers_latest_received_witness :
  ∃ resp,
    compare_offers Walkthrough.ratings Scenario.two_suppliers Walkthrough.session
      "total_cost" = Ok resp
    ∧ co_offers_count resp = 2%nat
    ∧ NoDup (of_supplier_id <$> co_ranked_suppliers resp).
Proof.
  destruct (compare_offers Walkthrough.ratings Scenario.two_suppliers Walkthrough.session
              "total_cost") as [resp|e] eqn:Hcall; [|vm_compute in Hcall; discriminate].
  exists resp. split; [reflexivity|].
  destruct (compare_offers_latest_received _ _ _ _ _ Hcall) as (Hcount & _ & Hnodup & _).
  split; [|exact Hnodup].
  vm_compute in Hcall. by injection Hcall as <-.
Defined.

(** By price, SUP-002 at 4.00 comes before SUP-001 at 4.50. *)
Lemma compare_offers_by_price_witness :
  ∃ resp,
    compare_offers Walkthrough.ratings Scenario.two_suppliers Walkthrough.session "price"
    = Ok resp
    ∧ StronglySorted (ascending of_offered_price) (co_ranked_suppliers resp)
    ∧ of_supplier_id <$> co_ranked_suppliers resp = ["SUP-002"; "SUP-001"].
Proof.
  destruct (compare_offers_by_price Walkthrough.ratings Scenario.two_suppliers
              Walkthrough.session (mk_is_Some _ _ eq_refl))
    as (resp & Hcall & _ & Hsorted & _).
  exists resp. split; [exact Hcall|]. split; [exact Hsorted|].
  vm_compute in Hcall. by injection Hcall as <-.
Defined.


(** *** The mandate service *)

(** The mandate of scenario E as the store holds it, and how the two keys
    fare on its signature. *)
Lemma created_mandate_keys :
  ∃ m,
    find_mandate MandateScenario.created.1 Walkthrough.mandate = Some (0%nat, m)
    ∧ payment_mandates MandateScenario.created.1 !! 0%nat = Some m
    ∧ status m = "created"
    ∧ expires_at m = MandateScenario.expiry
    ∧ Symbolic.rs256_verify "key-B" (kid (signed_mandate_json m))
        (payload (signed_mandate_json m)) (signature (signed_mandate_json m)) = false.
Proof. vm_compute. by eexists. Qed.

(** The same mandate once paid. *)
Lemma paid_mandate :
  ∃ m,
    find_mandate Walkthrough.paid.1 Walkthrough.mandate = Some (0%nat, m)
    ∧ status m = "executed"
    ∧ expires_at m = MandateScenario.expiry
    ∧ Symbolic.rs256_verify "key-A" (kid (signed_mandate_json m))
        (payload (signed_mandate_json m)) (signature (signed_mandate_json m)) = true
    ∧ aud (payload (signed_mandate_json m)) = "ap2-payment-gateway"
    ∧ iat (payload (signed_mandate_json m)) = 1
    ∧ exp (payload (signed_mandate_json m)) = 86401.
Proof. vm_compute. by eexists. Qed.

(** Paid at second 3 under PO-1, the mandate is refused at second 4 under
    PO-2. *)
Lemma execute_payment_only_once_witness :
  MandateScenario.execute_payment "key-B" Walkthrough.paid.1
    (MandateScenario.at_instant 4000000000) Walkthrough.mandate "PO-2"
  = (Walkthrough.paid.1,
     Raise (ValueError
       "Mandate must be verified before execution. Current status: executed")).
Proof.
  destruct Walkthrough.paid as [db' [resp|e]] eqn:Hcall;
    [|vm_compute in Hcall; discriminate].
  exact (execute_payment_only_once string string Symbolic.public_key
           Symbolic.rs256_verify "key-A" "key-B" MandateScenario.created.1 db'
           (MandateScenario.at_instant 3000000000) (MandateScenario.at_instant 4000000000)
           Walkthrough.mandate "PO-1" "PO-2" resp Hcall).
Defined.

(** A verification of the paid mandate by a service holding another key
    returns invalid and takes the mandate out of "executed". *)
Lemma verify_mandate_verdict_witness :
  ∃ db' v m',
    MandateScenario.verify_mandate "key-B" Walkthrough.paid.1
      (MandateScenario.at_instant 4000000000) Walkthrough.mandate None = (db', Ok v)
    ∧ valid v = false
    ∧ find_mandate db' Walkthrough.mandate = Some (0%nat, m')
    ∧ (status m' = "expired" ∨ status m' = "failed").
Proof.
  destruct paid_mandate as (m & Hfind & _).
  destruct (verify_mandate_verdict string string Symbolic.public_key Symbolic.rs256_verify
              "key-B" Walkthrough.paid.1 (MandateScenario.at_instant 4000000000)
              Walkthrough.mandate None 0%nat m Hfind)
    as (db' & v & m' & Hcall & Hfind' & _ & _ & Hinvalid).
  assert (valid v = false) as Hv.
  { vm_compute in Hcall. by injection Hcall as _ <-. }
  exists db', v, m'. split; [exact Hcall|]. split; [exact Hv|]. split; [exact Hfind'|].
  exact (proj2 (proj2 (Hinvalid Hv))).
Defined.

(** The paid mandate is verified again at second 4 with a merchant
    authorization, and paid a second time at second 5, under PO-2. *)
Lemma reverified_mandate_executes_witness :
  ∃ db1 v db2 again,
    MandateScenario.verify_mandate "key-A" Walkthrough.paid.1
      (MandateScenario.at_instant 4000000000) Walkthrough.mandate (Some "merchant-ok")
    = (db1, Ok v)
    ∧ MandateScenario.execute_payment "key-B" db1 (MandateScenario.at_instant 5000000000)
        Walkthrough.mandate "PO-2" = (db2, Ok again)
    ∧ ex_po_number again = "PO-2"
    ∧ MandateScenario.mandate_status db2 Walkthrough.mandate = Some "executed".
Proof.
  destruct paid_mandate as (m & Hfind & _ & Hexpires & Hsig & Haud & Hiat & Hexp).
  destruct (reverified_mandate_executes string string Symbolic.public_key
              Symbolic.rs256_verify "key-A" "key-B" Walkthrough.paid.1
              (MandateScenario.at_instant 4000000000)
              (MandateScenario.at_instant 5000000000) Walkthrough.mandate "PO-2"
              (Some "merchant-ok") 0%nat m Hfind
              ltac:(rewrite Hexpires; by vm_compute) Hsig Haud
              ltac:(rewrite Hiat; by vm_compute) ltac:(rewrite Hexp; by vm_compute)
              eq_refl)
    as (db1 & v & db2 & again & m2 & Hverify & _ & Hexecute & Hpo & _ & Hfind2 & Hstatus & _).
  exists db1, v, db2, again. split; [exact Hverify|]. split; [exact Hexecute|].
  split; [exact Hpo|].
  unfold MandateScenario.mandate_status. rewrite Hfind2. simpl. by rewrite Hstatus.
Defined.

(** Found expired a day and three seconds after its creation, the mandate
    can be neither executed nor, an hour later, verified. *)
Lemma expired_mandate_stays_expired_witness :
  let db1 :=
    (MandateScenario.verify_mandate "key-A" MandateScenario.created.1 Walkthrough.too_late
       Walkthrough.mandate None).1 in
  MandateScenario.execute_payment "key-A" db1
    (MandateScenario.at_instant (90000 * 1000000000)) Walkthrough.mandate "PO-1"
  = (db1, Raise (ValueError
       "Mandate must be verified before execution. Current status: expired"))
  ∧ MandateScenario.verify_mandate "key-A" db1
      (MandateScenario.at_instant (90000 * 1000000000)) Walkthrough.mandate
      (Some "merchant-ok")
    = (db1, Ok (invalid Walkthrough.mandate "Mandate expired" (Some MandateScenario.expiry))).
Proof.
  destruct created_mandate_keys as (m & Hfind & _ & _ & Hexpires & _).
  destruct (expired_mandate_stays_expired string string Symbolic.public_key
              Symbolic.rs256_verify "key-A" "key-A" MandateScenario.created.1
              Walkthrough.too_late (MandateScenario.at_instant (90000 * 1000000000))
              Walkthrough.mandate "PO-1" None (Some "merchant-ok") 0%nat m Hfind
              ltac:(rewrite Hexpires; by vm_compute))
    as [Hexecute Hverify].
  split; [exact Hexecute|].
  rewrite <- Hexpires. apply Hverify. by vm_compute.
Defined.

(** An execution attempted at second 3 by a service holding another key
    fails and leaves the mandate "failed"; the signing service is refused at
    second 4. *)
Lemma execute_payment_under_another_key_witness :
  ∃ db1,
    MandateScenario.execute_payment "key-B" MandateScenario.created.1
      (MandateScenario.at_instant 3000000000) Walkthrough.mandate "PO-1"
    = (db1, Raise (ValueError "Mandate verification failed: Invalid signature"))
    ∧ MandateScenario.execute_payment "key-A" db1 (MandateScenario.at_instant 4000000000)
        Walkthrough.mandate "PO-1"
      = (db1, Raise (ValueError
           "Mandate must be verified before execution. Current status: failed")).
Proof.
  destruct created_mandate_keys as (m & Hfind & _ & Hstatus & Hexpires & Hsig).
  eexists.
  exact (execute_payment_under_another_key string string Symbolic.public_key
           Symbolic.rs256_verify "key-B" "key-A" MandateScenario.created.1
           (MandateScenario.at_instant 3000000000) (MandateScenario.at_instant 4000000000)
           Walkthrough.mandate "PO-1" "PO-1" 0%nat m Hfind Hstatus
           ltac:(rewrite Hexpires; by vm_compute) Hsig).
Defined.



(** Verified and paid, the mandate of scenario E still carries the terms
    it was created with. *)
Lemma signed_terms_never_change_witness :
  ∃ m m',
    payment_mandates MandateScenario.created.1 !! 0%nat = Some m
    ∧ payment_mandates (Walkthrough.after_creation MandateScenario.created.1) !! 0%nat
      = Some m'
    ∧ same_terms m m'.
Proof.
  destruct created_mandate_keys as (m & _ & Hrow & _).
  destruct (signed_terms_never_change string string Symbolic.public_key
              Symbolic.rs256_sign Symbolic.rs256_verify MandateScenario.created.1
              (tail Walkthrough.lifecycle) 0%nat m Hrow)
    as (m' & Hrow' & Hterms).
  by exists m, m'.
Defined.



